(** * Background remover: the batch pipeline of [bg_remover.py]

    A shallow embedding of the batch image-processing pipeline
    ([process_images_parallel] and its task [process_single_image]), of the
    background replacer ([add_color_background], [add_image_background]) and
    of the encoder choice ([image_to_bytes]), followed by the properties the
    specification states about them.

    Conventions.
    - A Python exception is the string [str(e)]; code that can raise returns
      [fallible A], with [inl] the raised exception.
    - Calls into Streamlit that only display something are recorded, in the
      order they are made, as a list of [st_call].
    - Tasks share no state, so the order in which the pool runs them cannot
      be observed: [future.result()] is the value the task returns.
    - The pretrained model, the image decoder, the encoder, the colour parser
      and the resampling filter are collaborators outside the repository;
      they are Section variables. *)

From Stdlib Require Import List Strings.String Strings.Ascii Strings.Byte ZArith Bool Arith Lia.
From Stdlib Require Import Sorted DecimalString.
Import ListNotations.

Local Open Scope list_scope.
Local Open Scope Z_scope.

(** ** Python values and exceptions *)

Definition exn := string.
Definition fallible (A : Type) : Type := (exn + A)%type.

Definition ret {A} (a : A) : fallible A := inr a.
Definition raise {A} (e : exn) : fallible A := inl e.
Definition bind {A B} (m : fallible A) (k : A -> fallible B) : fallible B :=
  match m with
  | inl e => inl e
  | inr a => k a
  end.

Notation "x <- m ;; k" := (bind m (fun x => k))
  (at level 61, m at next level, right associativity).

(** [len(x)] as a Python integer. *)
Definition len {A} (l : list A) : Z := Z.of_nat (List.length l).

(** [str(n)] for a non-negative integer. *)
Definition str_of_nat (n : nat) : string := NilZero.string_of_uint (Nat.to_uint n).
Definition str_of_Z (z : Z) : string := NilZero.string_of_int (Z.to_int z).

(** ** Module constants (lines 12-15) *)

Definition MAX_FILES : nat := 10.
Definition ALLOWED_TYPES : list string := ["png"; "jpg"; "jpeg"; "webp"]%string.
Definition MAX_IMAGE_SIZE_MB : Z := 10.
Definition MB_TO_BYTES : Z := 1024 * 1024.

(** ** The imaging library

    Modelled from the spec: Pillow's [Image] class is an external library and
    not part of the repository.  An image is a mode, a size (width, height)
    and its pixels in row-major order.  Only the two modes the program ever
    requests are modelled.  A pixel of an [RGB] image has no alpha band; its
    fourth component is the filler 255. *)

Module Image.

Inductive band_mode := RGB | RGBA.

Definition mode_eqb (a b : band_mode) : bool :=
  match a, b with
  | RGB, RGB | RGBA, RGBA => true
  | _, _ => false
  end.

Record pixel := mkPixel { red : Z; green : Z; blue : Z; alpha : Z }.

Record t := mk { mode : band_mode; size : nat * nat; data : list pixel }.

Definition size_eqb (a b : nat * nat) : bool :=
  Nat.eqb (fst a) (fst b) && Nat.eqb (snd a) (snd b).

Definition area (sz : nat * nat) : nat := (fst sz * snd sz)%nat.

(** A well-formed image holds exactly width * height pixels. *)
Definition well_formed (im : t) : Prop := List.length (data im) = area (size im).

Definition opaque_pixel (p : pixel) : pixel :=
  mkPixel (red p) (green p) (blue p) 255.

(** [im.convert(m)]: going to [RGBA] adds a fully opaque alpha band, going
    to [RGB] drops the alpha band; converting to the image's own mode
    copies it. *)
Definition convert (m : band_mode) (im : t) : t :=
  if mode_eqb (mode im) m then im
  else mk m (size im) (map opaque_pixel (data im)).

(** [Image.new(m, size, color)] with the colour already parsed. *)
Definition new (m : band_mode) (sz : nat * nat) (color : pixel) : t :=
  mk m sz (repeat (match m with RGBA => color | RGB => opaque_pixel color end)
                  (area sz)).

(** Modelled from the spec: the per-pixel composite
    [out = fg * fg.alpha + bg * (1 - fg.alpha)] on 8-bit channels, the
    alpha fraction being [alpha / 255]. *)
Definition over (fg bg a : Z) : Z := (fg * a + bg * (255 - a)) / 255.

Definition blend (bg fg : pixel) : pixel :=
  mkPixel (over (red fg) (red bg) (alpha fg))
          (over (green fg) (green bg) (alpha fg))
          (over (blue fg) (blue bg) (alpha fg))
          (alpha fg + alpha bg * (255 - alpha fg) / 255).

Fixpoint zip_with {A B C} (f : A -> B -> C) (l : list A) (l' : list B) : list C :=
  match l, l' with
  | a :: l, b :: l' => f a b :: zip_with f l l'
  | _, _ => []
  end.

(** Modelled from the spec: [Image.alpha_composite(im1, im2)] puts [im2]
    over [im1]; both must be [RGBA] and of one size, anything else is a
    [ValueError]. *)
Definition alpha_composite (im1 im2 : t) : fallible t :=
  if negb (mode_eqb (mode im1) RGBA && mode_eqb (mode im2) RGBA
           && size_eqb (size im1) (size im2))
  then raise "images do not match"%string
  else ret (mk RGBA (size im1) (zip_with blend (data im1) (data im2))).

(** Modelled from the spec: [im.resize(size)] stretches the image to
    exactly [size].  The value of each output pixel is the resampling
    filter's business; [resample im size x y] is the pixel it puts at
    column [x] of row [y]. *)
Definition resize (resample : t -> nat * nat -> nat -> nat -> pixel)
    (im : t) (sz : nat * nat) : t :=
  mk (mode im) sz
     (map (fun k => resample im sz (k mod fst sz)%nat (k / fst sz)%nat)
          (seq 0 (area sz))).

(** Transparency of an image: some pixel of an alpha band is below 255. *)
Definition has_transparency (im : t) : bool :=
  match mode im with
  | RGBA => existsb (fun p => alpha p <? 255) (data im)
  | RGB => false
  end.

Definition fully_opaque (im : t) : bool := negb (has_transparency im).

(** Every stored pixel has alpha 255. *)
Definition alpha_255_everywhere (im : t) : Prop :=
  Forall (fun p => alpha p = 255) (data im).

End Image.

(** ** The encoder's arguments *)

Inductive image_format := PNG | JPEG.

Record save_args := mkSave
  { save_format : image_format; save_quality : option Z; save_optimize : bool }.

Section BackgroundReplacer.

(** Colour-string parser of the imaging library ([Image.new] accepts the
    hex string of the colour picker); raises on an unknown specifier. *)
Variable getcolor : string -> fallible Image.pixel.

(** Resampling filter used by [resize]. *)
Variable resample : Image.t -> nat * nat -> nat -> nat -> Image.pixel.

(** Encoder: [img.save(buf, ...)] followed by [buf.getvalue()]. *)
Variable save : Image.t -> save_args -> list byte.

(** Lines 198-204. *)
Definition add_color_background (image : Image.t) (color : string) : fallible Image.t :=
  let image :=
    if negb (Image.mode_eqb (Image.mode image) Image.RGBA)
    then Image.convert Image.RGBA image
    else image in
  c <- getcolor color ;;
  let background := Image.new Image.RGBA (Image.size image) c in
  Image.alpha_composite background image.

(** Lines 206-213. *)
Definition add_image_background (foreground background_img : Image.t) : fallible Image.t :=
  let background_img :=
    if negb (Image.size_eqb (Image.size background_img) (Image.size foreground))
    then Image.resize resample background_img (Image.size foreground)
    else background_img in
  let background := Image.convert Image.RGBA background_img in
  Image.alpha_composite background foreground.

(** Lines 283-292: the arguments [image_to_bytes] passes to [save]. *)
Definition image_to_bytes_args (img : Image.t) : save_args :=
  if Image.mode_eqb (Image.mode img) Image.RGBA
  then mkSave PNG None true
  else mkSave JPEG (Some 85) true.

Definition image_to_bytes (img : Image.t) : list byte :=
  save img (image_to_bytes_args img).

End BackgroundReplacer.

(** ** Uploaded files, Python values, task outcomes *)

(** Streamlit's uploaded file: [file.name] and [file.getvalue()]. *)
Record UploadedFile := mkFile { name : string; getvalue : list byte }.

(** The values that occur in the triples [process_single_image] returns. *)
Inductive value := VNone | VStr (s : string) | VImage (im : Image.t).

(** Python truth value: [None] and the empty string are false; an image
    object is true. *)
Definition truthy (v : value) : bool :=
  match v with
  | VNone => false
  | VStr s => negb (String.eqb s "")
  | VImage _ => true
  end.

(** The triple a task returns: [(original, result, name)]. *)
Definition outcome : Type := value * value * value.

(** The radio button's choices (line 91). *)
Inductive bg_option := opt_Transparent | opt_Color | opt_Image.

(** Calls that display something, in the order they are made. *)
Inductive st_call :=
| st_warning (body : value)
| st_error (body : string)
| st_progress (v : nat)
| st_empty
| progress_bar_progress (num den : nat)   (* the ratio num / den *)
| progress_bar_empty
| status_text_text (s : string)
| status_text_completed.                  (* "Completed in ... seconds!" *)

(** [st.session_state]: the fields the batch processor writes. *)
Record session_state := mkSession { processing : bool; results : list outcome }.

(** A future of the thread pool: the file its task was submitted with and
    what [future.result()] gives. *)
Record future := mkFuture { task_arg : UploadedFile; future_result : fallible outcome }.

Section BatchProcessor.

(** [Image.open]: the decoder, raising on corrupt or unsupported bytes. *)
Variable Image_open : list byte -> fallible Image.t.

(** [rembg.remove]: the pretrained segmentation model. *)
Variable remove : list byte -> fallible (list byte).

Variable getcolor : string -> fallible Image.pixel.
Variable resample : Image.t -> nat * nat -> nat -> nat -> Image.pixel.

(** Lines 193-196. *)
Definition remove_background (image_bytes : list byte) : fallible Image.t :=
  removed <- remove image_bytes ;;
  opened <- Image_open removed ;;
  ret (Image.convert Image.RGBA opened).

Section Task.

(** The variables [process_single_image] closes over. *)
Variable option_chosen : bg_option.
Variable bg_color : string.
Variable bg_image : option Image.t.

(** Lines 155-166: the body of the [try]. *)
Definition try_body (file : UploadedFile) : fallible outcome :=
  if len (getvalue file) >? MAX_IMAGE_SIZE_MB * MB_TO_BYTES then
    ret (VNone,
         VStr ("Image " ++ name file ++ " exceeds "
               ++ str_of_Z MAX_IMAGE_SIZE_MB ++ "MB limit"),
         VNone)
  else
    opened <- Image_open (getvalue file) ;;
    let original := Image.convert Image.RGBA opened in
    segmented <- remove_background (getvalue file) ;;
    composited <-
      match option_chosen with
      | opt_Color => add_color_background getcolor segmented bg_color
      | opt_Image =>
          match bg_image with
          | Some background => add_image_background resample segmented background
          | None => ret segmented
          end
      | opt_Transparent => ret segmented
      end ;;
    ret (VImage original, VImage composited, VStr (name file)).

(** Lines 153-168: [try ... except Exception as e]. *)
Definition process_single_image (file : UploadedFile) : outcome :=
  match try_body file with
  | inr returned => returned
  | inl e => (VNone, VStr ("Error processing " ++ name file ++ ": " ++ e), VNone)
  end.

(** [executor.submit(process_single_image, file)]. *)
Definition executor_submit (file : UploadedFile) : future :=
  mkFuture file (ret (process_single_image file)).

(** Line 171. *)
Definition submit_all (uploaded_files : list UploadedFile) : list future :=
  map executor_submit uploaded_files.

End Task.

(** Lines 174-181: what one iteration does with [future.result()]. *)
Definition retrieve (returned : fallible outcome) (results : list outcome)
  : list outcome * list st_call :=
  match returned with
  | inr (original, result, name) =>
      if truthy original && truthy result then
        (results ++ [(original, result, name)], [])
      else if truthy name then
        (results, [st_warning result])
      else
        (results, [])
  | inl e => (results, [st_error ("Unexpected error: " ++ e)])
  end.

(** Lines 173-186: the loop over [enumerate(futures)], from index [i]. *)
Fixpoint collect (futures_len files_len i : nat) (futures : list future)
    (results : list outcome) : list outcome * list st_call :=
  match futures with
  | [] => (results, [])
  | fut :: rest =>
      let (results, shown) := retrieve (future_result fut) results in
      let update :=
        [progress_bar_progress (i + 1) futures_len;
         status_text_text ("Processed " ++ str_of_nat (i + 1) ++ "/"
                           ++ str_of_nat files_len ++ " images")] in
      let (results, later) := collect futures_len files_len (S i) rest results in
      (results, shown ++ update ++ later)
  end.

(** Lines 144-191.  The function overwrites both session fields, so its
    result does not depend on the session it starts from. *)
Definition process_images_parallel (uploaded_files : list UploadedFile)
    (option_chosen : bg_option) (bg_color : string) (bg_image : option Image.t)
  : session_state * list st_call :=
  let futures := submit_all option_chosen bg_color bg_image uploaded_files in
  let (results, shown) :=
    collect (List.length futures) (List.length uploaded_files) 0 futures [] in
  (mkSession false results,
   [st_progress 0; st_empty] ++ shown ++ [status_text_completed; progress_bar_empty]).

(** The widgets of the sidebar, as the user left them. *)
Record sidebar_widgets := mkWidgets
  { radio : bg_option;
    color_picker : string;
    bg_image_uploader : option (list byte);
    file_uploader : list UploadedFile;
    button_clicked : bool }.

Definition is_empty {A} (l : list A) : bool :=
  match l with [] => true | _ => false end.

(** Lines 83-133. *)
Definition display_sidebar (session : session_state) (widgets : sidebar_widgets)
  : fallible (list UploadedFile * bg_option * string * option Image.t * bool
              * list st_call) :=
  let option_chosen := radio widgets in
  let bg_color :=
    match option_chosen with
    | opt_Color => color_picker widgets
    | _ => "#FFFFFF"%string
    end in
  bg_image <-
    match option_chosen, bg_image_uploader widgets with
    | opt_Image, Some bg_image_file =>
        opened <- Image_open bg_image_file ;;
        ret (Some (Image.convert Image.RGB opened))
    | _, _ => ret None
    end ;;
  let uploaded_files := file_uploader widgets in
  let too_many :=
    negb (is_empty uploaded_files) && (MAX_FILES <? List.length uploaded_files)%nat in
  let shown :=
    if too_many then
      [st_warning (VStr ("Maximum " ++ str_of_nat MAX_FILES
                         ++ " files allowed. Only the first "
                         ++ str_of_nat MAX_FILES ++ " will be processed."))]
    else [] in
  let uploaded_files :=
    if too_many then firstn MAX_FILES uploaded_files else uploaded_files in
  let process_btn :=
    button_clicked widgets
    && negb (processing session || is_empty uploaded_files) in
  ret (uploaded_files, option_chosen, bg_color, bg_image, process_btn, shown).

(** Lines 294-302, up to the rendering of the results. *)
Definition main (session : session_state) (widgets : sidebar_widgets)
  : fallible (session_state * list st_call) :=
  sidebar <- display_sidebar session widgets ;;
  let '(uploaded_files, option_chosen, bg_color, bg_image, process_btn, shown) :=
    sidebar in
  if process_btn && negb (is_empty uploaded_files) then
    let (session', shown') :=
      process_images_parallel uploaded_files option_chosen bg_color bg_image in
    ret (session', shown ++ shown')
  else
    ret (session, shown).

End BatchProcessor.

(** ** Reading a task outcome and a run *)

(** The size test of line 155. *)
Definition oversized (file : UploadedFile) : bool :=
  len (getvalue file) >? MAX_IMAGE_SIZE_MB * MB_TO_BYTES.

(** The files that pass the size test. *)
Definition admitted (files : list UploadedFile) : list UploadedFile :=
  filter (fun file => negb (oversized file)) files.

(** A Success outcome is [(original, result, name)] with two images. *)
Definition is_success (o : outcome) : bool :=
  match o with
  | (VImage _, VImage _, VStr _) => true
  | _ => false
  end.

(** A Failure outcome is [(None, message, None)]. *)
Definition is_failure (o : outcome) : bool :=
  match o with
  | (VNone, VStr _, VNone) => true
  | _ => false
  end.

(** The progress signals [(completed_count, total_count)] among the calls. *)
Fixpoint progress_signals (shown : list st_call) : list (nat * nat) :=
  match shown with
  | [] => []
  | progress_bar_progress num den :: rest => (num, den) :: progress_signals rest
  | _ :: rest => progress_signals rest
  end.

(** The bodies of the warnings among the calls. *)
Fixpoint warnings (shown : list st_call) : list value :=
  match shown with
  | [] => []
  | st_warning body :: rest => body :: warnings rest
  | _ :: rest => warnings rest
  end.

(** The bodies of the errors among the calls. *)
Fixpoint errors (shown : list st_call) : list string :=
  match shown with
  | [] => []
  | st_error body :: rest => body :: errors rest
  | _ :: rest => errors rest
  end.

(** A signal that reports the whole batch done. *)
Definition is_final (signal : nat * nat) : bool := Nat.eqb (fst signal) (snd signal).

(** The signals [(a, total); (a + 1, total); ...], [n] of them. *)
Definition counting (total a n : nat) : list (nat * nat) :=
  map (fun k => (k, total)) (seq a n).

(** ** Concrete collaborators and inputs *)

Module Sample.

Definition white : Image.pixel := Image.mkPixel 255 255 255 255.
Definition grey : Image.pixel := Image.mkPixel 9 9 9 255.

(** A decoder that rejects the empty buffer and decodes anything else to a
    single grey pixel. *)
Definition Image_open (buffer : list byte) : fallible Image.t :=
  match buffer with
  | [] => raise "cannot identify image file"%string
  | _ => ret (Image.mk Image.RGB (1, 1)%nat [grey])
  end.

(** A segmentation model that hands its input back. *)
Definition remove (buffer : list byte) : fallible (list byte) := ret buffer.

Definition getcolor (color : string) : fallible Image.pixel := ret white.

Definition resample (im : Image.t) (sz : nat * nat) (x y : nat) : Image.pixel :=
  nth 0 (Image.data im) white.

Definition photo : UploadedFile := mkFile "photo.png" ["137"%byte; "P"%byte].
Definition portrait : UploadedFile := mkFile "portrait.jpg" ["255"%byte; "216"%byte].
Definition corrupt : UploadedFile := mkFile "corrupt.png" [].

(** A buffer of 12 MiB. *)
Definition huge_buffer : list byte := repeat "000"%byte (Z.to_nat 12582912).
Definition huge : UploadedFile := mkFile "huge.png" huge_buffer.

Definition batch_of_three : list UploadedFile := [photo; huge; portrait].

Definition eleven_files : list UploadedFile :=
  [photo; portrait; photo; portrait; photo; portrait; photo; portrait; photo;
   portrait; corrupt].

(** A fully opaque image that carries an alpha band. *)
Definition opaque_rgba : Image.t :=
  Image.mk Image.RGBA (2, 1)%nat
    [Image.mkPixel 10 20 30 255; Image.mkPixel 200 100 0 255].

Definition backdrop : Image.t :=
  Image.mk Image.RGB (1, 2)%nat [grey; white].

End Sample.

(** ** Session initialisation *)

(** The three keys of [st.session_state] the program uses; [None] is a key
    that is not in the session. *)
Record raw_session := mkRaw
  { uploader_key : option string;
    processing_key : option bool;
    results_key : option (list outcome) }.

(** Lines 74-81; [uuid4] is the string [str(uuid.uuid4())] would give. *)
Definition initialize_session (uuid4 : string) (state : raw_session) : raw_session :=
  let state :=
    match uploader_key state with
    | None => mkRaw (Some uuid4) (processing_key state) (results_key state)
    | Some _ => state
    end in
  let state :=
    match processing_key state with
    | None => mkRaw (uploader_key state) (Some false) (results_key state)
    | Some _ => state
    end in
  match results_key state with
  | None => mkRaw (uploader_key state) (processing_key state) (Some [])
  | Some _ => state
  end.

(** ** Rendering and downloads *)

(** An entry of [st.session_state.results] as [display_results] unpacks it:
    two images and the file name.  These are the only triples a run stores. *)
Definition stored : Type := Image.t * Image.t * string.

Definition of_stored (entry : stored) : outcome :=
  let '(original, result, name) := entry in
  (VImage original, VImage result, VStr name).

(** The calls of the result page.  [st_image] records the column it is made
    in; a download button records its column when it is made in one.
    Headings and rules ([st.markdown]) are not recorded. *)
Inductive page_call :=
| st_columns (n : nat)
| st_image (column : nat) (image : Image.t) (caption : string)
| st_download_button (column : option nat) (label : string) (data : list byte)
    (file_name mime : string)
| st_button (label : string).

(** [s[1:]] on a string. *)
Definition drop_first (s : string) : string :=
  match s with
  | EmptyString => EmptyString
  | String _ rest => rest
  end.

(** [range(0, n, step)]. *)
Definition range_step (n step : nat) : list nat :=
  map (fun k => (k * step)%nat) (seq 0 ((n + step - 1) / step)).

(** Line 223. *)
Definition cols_per_row : nat := 2.

Section Rendering.

(** Encoder, as for [image_to_bytes]. *)
Variable save : Image.t -> save_args -> list byte.

(** [Path(name).suffix] and [Path(name).stem] of the path library. *)
Variable Path_suffix : string -> string.
Variable Path_stem : string -> string.

(** The bytes of a zip archive with the given entries, written in this
    order ([ZipFile.writestr], then [zip_buffer.getvalue()]). *)
Variable zip_getvalue : list (string * list byte) -> list byte.

(** Lines 240-259. *)
Definition download_single_image (image_data : stored) : list page_call :=
  let '(original, result, name) := image_data in
  [st_columns 2;
   st_download_button (Some 0%nat) "Download Original"
     (image_to_bytes save original)
     ("original_" ++ name)
     ("image/" ++ drop_first (Path_suffix name));
   st_download_button (Some 1%nat) "Download Result"
     (image_to_bytes save result)
     (Path_stem name ++ "_nobg.png")
     "image/png"].

(** Lines 267-274: the entries written to the archive. *)
Definition archive_entries (results : list stored) : list (string * list byte) :=
  flat_map
    (fun entry : stored =>
       let '(original, result, name) := entry in
       [(("originals/" ++ name)%string, image_to_bytes save original);
        (("results/" ++ Path_stem name ++ "_nobg.png")%string,
         image_to_bytes save result)])
    results.

(** Lines 261-281; [clicked] is what [st.button] returns. *)
Definition download_all_images (clicked : bool) (results : list stored)
  : list page_call :=
  st_button "Download All as ZIP"
  :: (if clicked then
        [st_download_button None "Click to download ZIP"
           (zip_getvalue (archive_entries results))
           "background_removed_images.zip" "application/zip"]
      else []).

(** Lines 226-229: one row, [zip(cols, results[i:i+cols_per_row])]. *)
Definition display_row (row : list stored) : list page_call :=
  flat_map
    (fun placed : nat * stored =>
       let '(col, (original, result, name)) := placed in
       [st_image col original ("Original: " ++ name);
        st_image col result ("Result: " ++ name)])
    (combine (seq 0 cols_per_row) row).

(** Lines 224-229. *)
Definition display_grid (results : list stored) : list page_call :=
  flat_map
    (fun i =>
       st_columns cols_per_row
       :: display_row (firstn cols_per_row (skipn i results)))
    (range_step (List.length results) cols_per_row).

(** Lines 215-238. *)
Definition display_results (clicked : bool) (results : list stored)
  : list page_call :=
  if is_empty results then []
  else
    display_grid results
    ++ (if (List.length results =? 1)%nat
        then download_single_image (nth 0 results (Image.mk Image.RGBA (0, 0)%nat [],
                                                    Image.mk Image.RGBA (0, 0)%nat [],
                                                    EmptyString))
        else download_all_images clicked results).

End Rendering.

(** The images a page shows, in order, without their columns. *)
Fixpoint shown_images (calls : list page_call) : list (Image.t * string) :=
  match calls with
  | [] => []
  | st_image _ image caption :: rest => (image, caption) :: shown_images rest
  | _ :: rest => shown_images rest
  end.

(** The labels of the download buttons a page offers, in order. *)
Fixpoint download_labels (calls : list page_call) : list string :=
  match calls with
  | [] => []
  | st_download_button _ label _ _ _ :: rest => label :: download_labels rest
  | _ :: rest => download_labels rest
  end.

(** The rows a page opens. *)
Fixpoint rows_opened (calls : list page_call) : nat :=
  match calls with
  | [] => 0%nat
  | st_columns _ :: rest => S (rows_opened rest)
  | _ :: rest => rows_opened rest
  end.

(** The calls of a run on [total] files, whatever the files are. *)
Definition progress_script (total : nat) : list st_call :=
  [st_progress 0; st_empty]
  ++ flat_map
       (fun done =>
          [progress_bar_progress done total;
           status_text_text ("Processed " ++ str_of_nat done ++ "/"
                             ++ str_of_nat total ++ " images")])
       (seq 1 total)
  ++ [status_text_completed; progress_bar_empty].

(** A message contains a name. *)
Definition mentions (message name : string) : Prop :=
  exists before after, message = (before ++ name ++ after)%string.

(** A path library for concrete runs: the suffix starts at the last dot of
    the name, provided that dot is neither its first nor its last character;
    the stem is what comes before the suffix. *)
Module SamplePath.

Fixpoint last_dot (s : string) : option nat :=
  match s with
  | EmptyString => None
  | String c rest =>
      match last_dot rest with
      | Some i => Some (S i)
      | None => if Ascii.eqb c "."%char then Some 0%nat else None
      end
  end.

Definition split_at (name : string) : option nat :=
  match last_dot name with
  | Some i =>
      if ((0 <? i) && (i <? String.length name - 1))%nat then Some i else None
  | None => None
  end.

Definition suffix (name : string) : string :=
  match split_at name with
  | Some i => substring i (String.length name - i) name
  | None => EmptyString
  end.

Definition stem (name : string) : string :=
  match split_at name with
  | Some i => substring 0 i name
  | None => name
  end.

Definition save (img : Image.t) (args : save_args) : list byte :=
  match save_format args with
  | PNG => ["137"%byte; "P"%byte; "N"%byte; "G"%byte]
  | JPEG => ["255"%byte; "216"%byte]
  end.

Definition zip_getvalue (entries : list (string * list byte)) : list byte :=
  flat_map snd entries.

End SamplePath.

(** * Properties *)

(** ** The imaging library *)

Lemma mode_eqb_eq (a b : Image.band_mode) : Image.mode_eqb a b = true <-> a = b.
Proof. destruct a, b; simpl; split; congruence. Qed.

Lemma size_eqb_eq (a b : nat * nat) : Image.size_eqb a b = true <-> a = b.
Proof.
  destruct a as [w h], b as [w' h']; unfold Image.size_eqb; simpl.
  rewrite andb_true_iff, !Nat.eqb_eq. split.
  - intros [-> ->]; reflexivity.
  - intros E; injection E; auto.
Qed.

Lemma size_eqb_refl (a : nat * nat) : Image.size_eqb a a = true.
Proof. apply size_eqb_eq; reflexivity. Qed.

Lemma convert_mode (m : Image.band_mode) (im : Image.t) :
  Image.mode (Image.convert m im) = m.
Proof.
  unfold Image.convert. destruct (Image.mode_eqb (Image.mode im) m) eqn:E.
  - apply mode_eqb_eq; exact E.
  - reflexivity.
Qed.

Lemma convert_size (m : Image.band_mode) (im : Image.t) :
  Image.size (Image.convert m im) = Image.size im.
Proof. unfold Image.convert. destruct (Image.mode_eqb _ _); reflexivity. Qed.

Lemma convert_data_length (m : Image.band_mode) (im : Image.t) :
  List.length (Image.data (Image.convert m im)) = List.length (Image.data im).
Proof.
  unfold Image.convert. destruct (Image.mode_eqb _ _); simpl; auto using length_map.
Qed.

Lemma opaque_pixel_fixed (p : Image.pixel) :
  Image.alpha p = 255 -> Image.opaque_pixel p = p.
Proof. destruct p; unfold Image.opaque_pixel; simpl; intros ->; reflexivity. Qed.

Lemma convert_opaque_data (m : Image.band_mode) (im : Image.t) :
  Image.alpha_255_everywhere im -> Image.data (Image.convert m im) = Image.data im.
Proof.
  unfold Image.alpha_255_everywhere, Image.convert. intros H.
  destruct (Image.mode_eqb _ _); simpl; [reflexivity|].
  induction H as [|p l Hp _ IH]; simpl; [reflexivity|].
  rewrite IH, (opaque_pixel_fixed p Hp). reflexivity.
Qed.

(** With foreground alpha 255 the composite formula returns the foreground
    channel, whatever the background. *)
Lemma over_opaque (fg bg : Z) : Image.over fg bg 255 = fg.
Proof.
  unfold Image.over. replace (bg * (255 - 255)) with 0 by lia.
  rewrite Z.add_0_r. apply Z.div_mul. discriminate.
Qed.

Lemma blend_opaque_foreground (bg fg : Image.pixel) :
  Image.alpha fg = 255 -> Image.blend bg fg = fg.
Proof.
  destruct fg as [r g b a]; simpl; intros ->. unfold Image.blend; simpl.
  rewrite !over_opaque. f_equal.
  change (255 - 255) with 0. rewrite Z.mul_0_r. reflexivity.
Qed.

(** Over an opaque background the composite is opaque. *)
Lemma blend_opaque_background (bg fg : Image.pixel) :
  Image.alpha bg = 255 -> Image.alpha (Image.blend bg fg) = 255.
Proof.
  intros E. unfold Image.blend; cbn [Image.alpha]. rewrite E.
  rewrite (Z.mul_comm 255), Z.div_mul by discriminate. lia.
Qed.

Lemma zip_with_length {A B C} (f : A -> B -> C) (l : list A) (l' : list B) :
  List.length l = List.length l' ->
  List.length (Image.zip_with f l l') = List.length l'.
Proof.
  revert l'. induction l as [|a l IH]; destruct l' as [|b l']; simpl;
    intros E; try discriminate; auto.
Qed.

Lemma zip_with_blend_opaque (c : Image.pixel) (fg : list Image.pixel) :
  Forall (fun p => Image.alpha p = 255) fg ->
  Image.zip_with Image.blend (repeat c (List.length fg)) fg = fg.
Proof.
  induction 1 as [|p l Hp _ IH]; simpl; [reflexivity|].
  rewrite IH, (blend_opaque_foreground c p Hp). reflexivity.
Qed.

Lemma alpha_composite_ok (im1 im2 : Image.t) :
  Image.mode im1 = Image.RGBA -> Image.mode im2 = Image.RGBA ->
  Image.size im1 = Image.size im2 ->
  Image.alpha_composite im1 im2
  = inr (Image.mk Image.RGBA (Image.size im1)
           (Image.zip_with Image.blend (Image.data im1) (Image.data im2))).
Proof.
  intros M1 M2 S. unfold Image.alpha_composite.
  rewrite M1, M2, S, size_eqb_refl. reflexivity.
Qed.

Lemma resize_size resample (im : Image.t) (sz : nat * nat) :
  Image.size (Image.resize resample im sz) = sz.
Proof. reflexivity. Qed.

Lemma resize_well_formed resample (im : Image.t) (sz : nat * nat) :
  Image.well_formed (Image.resize resample im sz).
Proof. unfold Image.well_formed; simpl. rewrite length_map, length_seq. reflexivity. Qed.

(** ** BackgroundReplacer *)

(** C5: compositing a fully opaque foreground (alpha 255 at every pixel)
    over a Color background gives back exactly the foreground's pixels, at
    the foreground's size, whatever the colour. *)
Theorem add_color_background_opaque_foreground :
  forall getcolor (image : Image.t) (color : string) (c : Image.pixel),
    getcolor color = inr c ->
    Image.well_formed image ->
    Image.alpha_255_everywhere image ->
    exists out,
      add_color_background getcolor image color = inr out
      /\ Image.data out = Image.data image
      /\ Image.size out = Image.size image.
Proof.
  intros getcolor image color c Hc Hwf Hop.
  unfold add_color_background. rewrite Hc. simpl.
  set (fg := if negb (Image.mode_eqb (Image.mode image) Image.RGBA)
             then Image.convert Image.RGBA image else image).
  assert (Hmode : Image.mode fg = Image.RGBA).
  { unfold fg. destruct (Image.mode_eqb (Image.mode image) Image.RGBA) eqn:E; simpl.
    - apply mode_eqb_eq; exact E.
    - apply convert_mode. }
  assert (Hsize : Image.size fg = Image.size image).
  { unfold fg. destruct (negb _); [apply convert_size | reflexivity]. }
  assert (Hdata : Image.data fg = Image.data image).
  { unfold fg. destruct (negb _); [apply convert_opaque_data; exact Hop | reflexivity]. }
  rewrite alpha_composite_ok by (simpl; auto).
  eexists; split; [reflexivity|]. simpl. split; [|exact Hsize].
  rewrite Hdata, Hsize. unfold Image.well_formed in Hwf. rewrite <- Hwf.
  apply zip_with_blend_opaque. exact Hop.
Qed.

Lemma add_color_background_opaque_foreground_witness :
  Sample.getcolor "#FFFFFF" = inr Sample.white
  /\ Image.well_formed Sample.opaque_rgba
  /\ Image.alpha_255_everywhere Sample.opaque_rgba
  /\ exists out,
       add_color_background Sample.getcolor Sample.opaque_rgba "#FFFFFF" = inr out
       /\ Image.data out = Image.data Sample.opaque_rgba
       /\ Image.size out = Image.size Sample.opaque_rgba.
Proof.
  assert (Hwf : Image.well_formed Sample.opaque_rgba) by reflexivity.
  assert (Hop : Image.alpha_255_everywhere Sample.opaque_rgba)
    by (repeat constructor).
  split; [reflexivity|]. split; [exact Hwf|]. split; [exact Hop|].
  exact (add_color_background_opaque_foreground Sample.getcolor Sample.opaque_rgba
           "#FFFFFF" Sample.white eq_refl Hwf Hop).
Defined.

(** The foreground is composited as it comes: without an alpha band the
    compositor refuses it. *)
Lemma add_image_background_needs_alpha resample (foreground background_img : Image.t) :
  Image.mode foreground = Image.RGB ->
  add_image_background resample foreground background_img
  = inl "images do not match"%string.
Proof.
  intros M. unfold add_image_background, Image.alpha_composite.
  rewrite M, convert_mode. reflexivity.
Qed.

(** C6: with the Image background variant, a background whose dimensions
    differ from the foreground's is first resized to the foreground's
    dimensions, and one that already fits is used as it is; whatever the two
    images, a composite that is returned has the foreground's dimensions, and
    one is returned for every foreground that carries an alpha band. *)
Theorem add_image_background_fits_foreground :
  forall resample (foreground background_img : Image.t),
    (Image.size background_img <> Image.size foreground ->
     add_image_background resample foreground background_img
     = Image.alpha_composite
         (Image.convert Image.RGBA
            (Image.resize resample background_img (Image.size foreground)))
         foreground)
    /\ (Image.size background_img = Image.size foreground ->
        add_image_background resample foreground background_img
        = Image.alpha_composite (Image.convert Image.RGBA background_img) foreground)
    /\ (forall out,
          add_image_background resample foreground background_img = inr out ->
          Image.size out = Image.size foreground)
    /\ (Image.mode foreground = Image.RGBA ->
        exists out,
          add_image_background resample foreground background_img = inr out).
Proof.
  intros resample fg bg.
  assert (Hfit : Image.size
                   (Image.convert Image.RGBA
                      (if negb (Image.size_eqb (Image.size bg) (Image.size fg))
                       then Image.resize resample bg (Image.size fg)
                       else bg))
                 = Image.size fg).
  { rewrite convert_size.
    destruct (Image.size_eqb (Image.size bg) (Image.size fg)) eqn:E; cbn [negb].
    - apply size_eqb_eq; exact E.
    - reflexivity. }
  split; [|split; [|split]].
  - intros Hne. unfold add_image_background.
    destruct (Image.size_eqb (Image.size bg) (Image.size fg)) eqn:E; [|reflexivity].
    apply size_eqb_eq in E. contradiction.
  - intros He. unfold add_image_background.
    rewrite He, size_eqb_refl. reflexivity.
  - intros out. unfold add_image_background, Image.alpha_composite.
    destruct (negb (_ && _ && _)); [discriminate|].
    intros H; injection H as <-. cbn [Image.size]. exact Hfit.
  - intros M. unfold add_image_background.
    rewrite alpha_composite_ok by (auto using convert_mode). eauto.
Qed.

Lemma add_image_background_fits_foreground_witness :
  Image.mode Sample.opaque_rgba = Image.RGBA
  /\ Image.size Sample.backdrop <> Image.size Sample.opaque_rgba
  /\ exists out,
       add_image_background Sample.resample Sample.opaque_rgba Sample.backdrop = inr out
       /\ Image.size out = (2, 1)%nat.
Proof.
  split; [reflexivity|]. split; [discriminate|].
  destruct (add_image_background_fits_foreground Sample.resample
              Sample.opaque_rgba Sample.backdrop) as (_ & _ & Hsize & Hout).
  destruct (Hout eq_refl) as [out Hrun].
  exists out. split; [exact Hrun | exact (Hsize out Hrun)].
Defined.

(** When both images are well formed, so is the composite: it holds one
    pixel for every pixel of the foreground. *)
Lemma add_image_background_well_formed resample (foreground background_img out : Image.t) :
  Image.well_formed foreground ->
  Image.well_formed background_img ->
  add_image_background resample foreground background_img = inr out ->
  Image.well_formed out.
Proof.
  intros Wf Wb. unfold add_image_background.
  set (bg := if negb (Image.size_eqb _ _) then _ else _).
  assert (Wbg : Image.well_formed bg).
  { unfold bg. destruct (negb _); [apply resize_well_formed | exact Wb]. }
  clearbody bg. unfold Image.alpha_composite.
  destruct (negb _) eqn:E; [discriminate|].
  apply negb_false_iff in E. apply andb_true_iff in E as [_ S].
  apply size_eqb_eq in S. intros H; injection H as <-.
  unfold Image.well_formed in *; cbn [Image.data Image.size].
  rewrite zip_with_length.
  - rewrite Wf, S. reflexivity.
  - rewrite convert_data_length, Wbg, Wf. rewrite convert_size in S.
    rewrite S. reflexivity.
Qed.

(** ** ImageCodec *)

(** C7, as stated, fails: a fully opaque image that carries an alpha band
    is encoded losslessly. *)
Lemma opaque_rgba_is_encoded_as_png :
  Image.fully_opaque Sample.opaque_rgba = true
  /\ Image.has_transparency Sample.opaque_rgba = false
  /\ image_to_bytes_args Sample.opaque_rgba = mkSave PNG None true
  /\ save_format (image_to_bytes_args Sample.opaque_rgba) <> JPEG.
Proof. repeat split; discriminate. Qed.

(** C7, amended: the image's mode alone decides the encoder.  An image
    with an alpha band ([RGBA]) is saved as optimized PNG, any other as
    optimized JPEG of quality 85; so an image with a transparent pixel is
    always saved as PNG, and two images of one mode are saved alike. *)
Theorem image_to_bytes_format_by_mode :
  forall img : Image.t,
    (image_to_bytes_args img = mkSave PNG None true <-> Image.mode img = Image.RGBA)
    /\ (image_to_bytes_args img = mkSave JPEG (Some 85) true
        <-> Image.mode img <> Image.RGBA)
    /\ (Image.has_transparency img = true ->
        image_to_bytes_args img = mkSave PNG None true)
    /\ (forall img', Image.mode img' = Image.mode img ->
        image_to_bytes_args img' = image_to_bytes_args img).
Proof.
  intros img. unfold image_to_bytes_args, Image.has_transparency.
  destruct (Image.mode img) eqn:M; cbn [Image.mode_eqb];
    repeat split; try congruence; try discriminate.
  - intros img' ->. reflexivity.
  - intros img' ->. reflexivity.
Qed.

(** ** Lists of calls and of signals *)

Lemma progress_signals_app (l l' : list st_call) :
  progress_signals (l ++ l') = progress_signals l ++ progress_signals l'.
Proof.
  induction l as [|c l IH]; [reflexivity|].
  destruct c; simpl; rewrite IH; reflexivity.
Qed.

Lemma warnings_app (l l' : list st_call) :
  warnings (l ++ l') = warnings l ++ warnings l'.
Proof.
  induction l as [|c l IH]; [reflexivity|].
  destruct c; simpl; rewrite IH; reflexivity.
Qed.

Lemma errors_app (l l' : list st_call) :
  errors (l ++ l') = errors l ++ errors l'.
Proof.
  induction l as [|c l IH]; [reflexivity|].
  destruct c; simpl; rewrite IH; reflexivity.
Qed.

Lemma counting_length (total a n : nat) : List.length (counting total a n) = n.
Proof. unfold counting. rewrite length_map, length_seq. reflexivity. Qed.

Lemma counting_completed (total a n : nat) : map fst (counting total a n) = seq a n.
Proof.
  unfold counting. rewrite map_map. cbn [fst]. apply map_id.
Qed.

Lemma seq_strictly_increasing (n a : nat) : StronglySorted lt (seq a n).
Proof.
  revert a. induction n as [|n IH]; intros a; simpl; constructor.
  - apply IH.
  - apply Forall_forall. intros k Hk. apply in_seq in Hk. lia.
Qed.

Lemma counting_last (total n : nat) :
  last (counting total 1 (S n)) (0, 0)%nat = (S n, total).
Proof.
  unfold counting. rewrite seq_S, map_app. cbn [map]. rewrite last_last.
  reflexivity.
Qed.

(** How many signals of a count report [completed = total]. *)
Lemma counting_final (total n a : nat) :
  List.length (filter is_final (counting total a n))
  = if ((a <=? total) && (total <? a + n))%nat then 1%nat else 0%nat.
Proof.
  unfold counting. revert a. induction n as [|n IH]; intros a.
  - simpl. destruct (a <=? total)%nat eqn:E1, (total <? a + 0)%nat eqn:E2;
      try reflexivity.
    apply Nat.leb_le in E1. apply Nat.ltb_lt in E2. lia.
  - cbn [seq map filter]. unfold is_final at 1. cbn [fst snd].
    destruct (Nat.eqb_spec a total) as [->|Hne].
    + cbn [List.length]. rewrite IH.
      replace (S total <=? total)%nat with false by (symmetry; apply Nat.leb_gt; lia).
      replace (total <=? total)%nat with true by (symmetry; apply Nat.leb_le; lia).
      replace (total <? total + S n)%nat with true by (symmetry; apply Nat.ltb_lt; lia).
      reflexivity.
    + rewrite IH.
      destruct (Nat.leb_spec (S a) total), (Nat.leb_spec a total);
        destruct (Nat.ltb_spec total (S a + n)), (Nat.ltb_spec total (a + S n));
        cbn [andb]; try reflexivity; lia.
Qed.

Lemma filter_partition {A} (p q : A -> bool) (l : list A) :
  (forall x, In x l -> p x = negb (q x)) ->
  (List.length (filter p l) + List.length (filter q l) = List.length l)%nat.
Proof.
  induction l as [|x l IH]; intros H; [reflexivity|].
  cbn [filter]. rewrite (H x (or_introl eq_refl)).
  specialize (IH (fun y Hy => H y (or_intror Hy))).
  destruct (q x); cbn [negb List.length]; lia.
Qed.

(** ** BatchProcessor *)

Section BatchFacts.

Variable Image_open : list byte -> fallible Image.t.
Variable remove : list byte -> fallible (list byte).
Variable getcolor : string -> fallible Image.pixel.
Variable resample : Image.t -> nat * nat -> nat -> nat -> Image.pixel.

Section TaskFacts.

Variable option_chosen : bg_option.
Variable bg_color : string.
Variable bg_image : option Image.t.

Local Abbreviation body :=
  (try_body Image_open remove getcolor resample option_chosen bg_color bg_image).
Local Abbreviation task :=
  (process_single_image Image_open remove getcolor resample option_chosen bg_color
     bg_image).
Local Abbreviation submit :=
  (submit_all Image_open remove getcolor resample option_chosen bg_color bg_image).
Local Abbreviation run files :=
  (process_images_parallel Image_open remove getcolor resample files
     option_chosen bg_color bg_image).

(** The segmentation result always carries an alpha band. *)
Lemma remove_background_mode (image_bytes : list byte) (segmented : Image.t) :
  remove_background Image_open remove image_bytes = inr segmented ->
  Image.mode segmented = Image.RGBA.
Proof.
  unfold remove_background.
  destruct (remove image_bytes) as [e|removed]; cbn [bind]; [discriminate|].
  destruct (Image_open removed) as [e|opened]; cbn [bind]; [discriminate|].
  intros H; injection H as <-. apply convert_mode.
Qed.

(** What the body of the [try] can return. *)
Lemma try_body_returns (file : UploadedFile) (o : outcome) :
  body file = inr o ->
  (exists original result, o = (VImage original, VImage result, VStr (name file)))
  \/ (oversized file = true
      /\ o = (VNone, VStr ("Image " ++ name file ++ " exceeds 10MB limit"), VNone)).
Proof.
  unfold try_body. fold (oversized file).
  destruct (oversized file).
  - intros H; injection H as <-. right. split; reflexivity.
  - destruct (Image_open (getvalue file)) as [e|opened]; cbn [bind]; [discriminate|].
    destruct (remove_background Image_open remove (getvalue file)) as [e|segmented];
      cbn [bind]; [discriminate|].
    match goal with |- bind ?m _ = _ -> _ => destruct m as [e|composited] end;
      cbn [bind]; [discriminate|].
    intros H; injection H as <-. left. eauto.
Qed.

(** A task always returns, and what it returns is a Success or a Failure
    triple. *)
Lemma task_outcome (file : UploadedFile) :
  (exists original result,
      task file = (VImage original, VImage result, VStr (name file)))
  \/ (exists message, task file = (VNone, VStr message, VNone)).
Proof.
  unfold process_single_image.
  destruct (body file) as [e|o] eqn:E.
  - right. eauto.
  - destruct (try_body_returns file o E) as [(original & result & ->)|[_ ->]];
      [left|right]; eauto.
Qed.

Lemma task_success_or_failure (file : UploadedFile) :
  is_success (task file) = negb (is_failure (task file)).
Proof.
  destruct (task_outcome file) as [(original & result & ->)|(message & ->)];
    reflexivity.
Qed.

(** An oversized file is answered by the first statement of its task. *)
Lemma oversized_outcome (file : UploadedFile) :
  oversized file = true ->
  task file = (VNone, VStr ("Image " ++ name file ++ " exceeds 10MB limit"), VNone).
Proof.
  intros H. unfold process_single_image, try_body.
  fold (oversized file). rewrite H. reflexivity.
Qed.

(** An exception of the body is answered by the [except] clause. *)
Lemma raised_outcome (file : UploadedFile) (e : exn) :
  body file = inl e ->
  task file = (VNone, VStr ("Error processing " ++ name file ++ ": " ++ e), VNone).
Proof.
  intros H. unfold process_single_image. rewrite H. reflexivity.
Qed.

Lemma submit_args (files : list UploadedFile) : map task_arg (submit files) = files.
Proof.
  unfold submit_all. rewrite map_map. cbn [task_arg executor_submit].
  apply map_id.
Qed.

Lemma submit_results (files : list UploadedFile) :
  map future_result (submit files) = map (fun file => inr (task file)) files.
Proof. unfold submit_all. rewrite map_map. reflexivity. Qed.

(** The loop, from any index and any results so far. *)
Lemma collect_submitted (futures_len files_len : nat) (files : list UploadedFile) :
  forall (i : nat) (results : list outcome),
    fst (collect futures_len files_len i (submit files) results)
    = results ++ filter is_success (map task files)
    /\ progress_signals (snd (collect futures_len files_len i (submit files) results))
       = counting futures_len (i + 1) (List.length files)
    /\ warnings (snd (collect futures_len files_len i (submit files) results)) = []
    /\ errors (snd (collect futures_len files_len i (submit files) results)) = [].
Proof.
  induction files as [|file files IH]; intros i results.
  - cbn. rewrite app_nil_r. auto.
  - unfold submit_all. cbn [map collect executor_submit future_result].
    fold (submit files).
    assert (Hget : exists results',
               retrieve (ret (task file)) results = (results', [])
               /\ results' ++ filter is_success (map task files)
                  = results ++ filter is_success (task file :: map task files)).
    { destruct (task_outcome file) as [(original & result & ->)|(message & ->)].
      - eexists; split; [reflexivity|]. cbn [filter is_success].
        rewrite <- app_assoc. reflexivity.
      - eexists; split; reflexivity. }
    destruct Hget as (results' & -> & Hres).
    specialize (IH (S i) results').
    destruct (collect futures_len files_len (S i) (submit files) results')
      as [final later].
    cbn [fst snd] in *. destruct IH as (IH1 & IH2 & IH3 & IH4).
    cbn [app progress_signals warnings errors List.length].
    rewrite IH1, IH2, IH3, IH4, Hres.
    replace (S i + 1)%nat with (S (i + 1)) by lia. auto.
Qed.

Lemma run_results (files : list UploadedFile) :
  results (fst (run files)) = filter is_success (map task files).
Proof.
  unfold process_images_parallel.
  pose proof (collect_submitted (List.length (submit files)) (List.length files)
                files 0%nat []) as (H & _).
  destruct (collect _ _ _ _ _). exact H.
Qed.

Lemma run_processing (files : list UploadedFile) : processing (fst (run files)) = false.
Proof.
  unfold process_images_parallel. destruct (collect _ _ _ _ _). reflexivity.
Qed.

Lemma run_signals (files : list UploadedFile) :
  progress_signals (snd (run files))
  = counting (List.length files) 1 (List.length files).
Proof.
  unfold process_images_parallel.
  pose proof (collect_submitted (List.length (submit files)) (List.length files)
                files 0%nat []) as (_ & H & _).
  destruct (collect _ _ _ _ _) as [final shown]. cbn [fst snd] in *.
  cbn [app progress_signals]. rewrite progress_signals_app, H. cbn [progress_signals].
  rewrite app_nil_r. unfold submit_all. rewrite length_map. reflexivity.
Qed.

(** The batch processor never displays a warning nor an error. *)
Lemma run_shows_no_warning (files : list UploadedFile) :
  warnings (snd (run files)) = [] /\ errors (snd (run files)) = [].
Proof.
  unfold process_images_parallel.
  pose proof (collect_submitted (List.length (submit files)) (List.length files)
                files 0%nat []) as (_ & _ & Hw & He).
  destruct (collect _ _ _ _ _) as [final shown]. cbn [fst snd] in *.
  cbn [app warnings errors]. rewrite warnings_app, errors_app, Hw, He. auto.
Qed.

(** A batch of one failing file: nothing is stored and nothing but the
    progress is displayed. *)
Lemma run_single_failure (file : UploadedFile) (message : string) :
  task file = (VNone, VStr message, VNone) ->
  run [file]
  = (mkSession false [],
     [st_progress 0; st_empty; progress_bar_progress 1 1;
      status_text_text "Processed 1/1 images";
      status_text_completed; progress_bar_empty]).
Proof.
  intros H. unfold process_images_parallel, submit_all.
  cbn [map List.length collect executor_submit future_result].
  rewrite H. reflexivity.
Qed.

(** Successes and Failures partition the outcomes of a batch. *)
Lemma outcomes_partition (files : list UploadedFile) :
  (List.length (filter is_success (map task files))
   + List.length (filter is_failure (map task files))
   = List.length files)%nat.
Proof.
  rewrite filter_partition; [apply length_map|].
  intros o Ho. apply in_map_iff in Ho as (file & <- & _).
  apply task_success_or_failure.
Qed.

(** C2: every image of the batch yields exactly one outcome, a Success or
    a Failure, so the two counts add up to the number of images; the
    Successes are what the run stores in [results]. *)
Theorem one_outcome_per_image :
  forall files : list UploadedFile,
    map future_result (submit files) = map (fun file => inr (task file)) files
    /\ (List.length (filter is_success (map task files))
        + List.length (filter is_failure (map task files))
        = List.length files)%nat
    /\ results (fst (run files)) = filter is_success (map task files).
Proof.
  intros files. split; [apply submit_results|].
  split; [apply outcomes_partition|apply run_results].
Qed.

(** C3, amended: the size test is the first statement of the task itself.
    An oversized file is submitted to the pool like any other file; its task
    returns the Failure naming the file without decoding or segmenting
    anything; and the progress counts every submitted file, the oversized
    ones included, up to the length of the whole batch. *)
Theorem oversized_file_fails_inside_its_task :
  forall (files : list UploadedFile) (file : UploadedFile),
    In file files ->
    oversized file = true ->
    In (mkFuture file
          (inr (VNone, VStr ("Image " ++ name file ++ " exceeds 10MB limit"), VNone)))
       (submit files)
    /\ map task_arg (submit files) = files
    /\ progress_signals (snd (run files))
       = counting (List.length files) 1 (List.length files)
    /\ last (progress_signals (snd (run files))) (0, 0)%nat
       = (List.length files, List.length files).
Proof.
  intros files file Hin Hbig. split; [|split; [apply submit_args|split]].
  - unfold submit_all. apply in_map_iff. exists file. split; [|exact Hin].
    unfold executor_submit. rewrite (oversized_outcome file Hbig). reflexivity.
  - apply run_signals.
  - rewrite run_signals. destruct files as [|f files]; [destruct Hin|].
    cbn [List.length]. apply counting_last.
Qed.

(** C4: an exception raised inside a task becomes that task's Failure
    outcome, whose message carries the file name and the exception's text;
    every sibling task still returns its own outcome, the loop visits every
    future, and the run stores exactly the siblings' Successes. *)
Theorem task_exception_becomes_failure :
  forall (before after : list UploadedFile) (file : UploadedFile) (e : exn),
    body file = inl e ->
    task file = (VNone, VStr ("Error processing " ++ name file ++ ": " ++ e), VNone)
    /\ map future_result (submit (before ++ file :: after))
       = map (fun sibling => inr (task sibling)) before
         ++ inr (VNone, VStr ("Error processing " ++ name file ++ ": " ++ e), VNone)
         :: map (fun sibling => inr (task sibling)) after
    /\ results (fst (run (before ++ file :: after)))
       = filter is_success (map task (before ++ after))
    /\ processing (fst (run (before ++ file :: after))) = false
    /\ List.length (progress_signals (snd (run (before ++ file :: after))))
       = List.length (before ++ file :: after).
Proof.
  intros before after file e H. pose proof (raised_outcome file e H) as Hfail.
  split; [exact Hfail|]. split; [|split; [|split]].
  - rewrite submit_results, map_app. cbn [map]. rewrite Hfail. reflexivity.
  - rewrite run_results, !map_app, !filter_app. cbn [map filter].
    rewrite Hfail. reflexivity.
  - apply run_processing.
  - rewrite run_signals. apply counting_length.
Qed.

(** C9: in a run on a non-empty batch the progress signals are
    [(1, N), (2, N), ..., (N, N)] for the [N] futures: one signal per task,
    strictly increasing in the completed count, and reaching the total
    exactly once. *)
Theorem progress_counts_up_to_total :
  forall files : list UploadedFile,
    files <> [] ->
    progress_signals (snd (run files))
    = counting (List.length files) 1 (List.length files)
    /\ List.length (progress_signals (snd (run files))) = List.length files
    /\ StronglySorted lt (map fst (progress_signals (snd (run files))))
    /\ List.length (filter is_final (progress_signals (snd (run files)))) = 1%nat.
Proof.
  intros files Hne. rewrite run_signals.
  split; [reflexivity|]. split; [apply counting_length|]. split.
  - rewrite counting_completed. apply seq_strictly_increasing.
  - rewrite counting_final. destruct files as [|f files]; [congruence|].
    cbn [List.length].
    replace (1 <=? S (List.length files))%nat with true
      by (symmetry; apply Nat.leb_le; lia).
    replace (S (List.length files) <? 1 + S (List.length files))%nat with true
      by (symmetry; apply Nat.ltb_lt; lia).
    reflexivity.
Qed.

End TaskFacts.

(** C10: with the Image option chosen and no background bitmap supplied,
    a task does exactly what it does with the Transparent option: when the
    file decodes and segments, it returns the segmentation result
    unchanged, and it raises nothing of its own. *)
Theorem image_option_without_bitmap_is_transparent :
  forall (bg_color bg_color' : string) (file : UploadedFile),
    process_single_image Image_open remove getcolor resample opt_Image bg_color None file
    = process_single_image Image_open remove getcolor resample opt_Transparent
        bg_color' None file
    /\ (forall opened segmented,
          oversized file = false ->
          Image_open (getvalue file) = inr opened ->
          remove_background Image_open remove (getvalue file) = inr segmented ->
          process_single_image Image_open remove getcolor resample opt_Image
            bg_color None file
          = (VImage (Image.convert Image.RGBA opened), VImage segmented,
             VStr (name file))).
Proof.
  intros bg_color bg_color' file. split; [reflexivity|].
  intros opened segmented Hsize Hopen Hseg.
  unfold process_single_image, try_body. fold (oversized file).
  rewrite Hsize, Hopen. cbn [bind]. rewrite Hseg. reflexivity.
Qed.

End BatchFacts.

(** ** The shell around the batch processor *)

Section ShellFacts.

Variable Image_open : list byte -> fallible Image.t.
Variable remove : list byte -> fallible (list byte).
Variable getcolor : string -> fallible Image.pixel.
Variable resample : Image.t -> nat * nat -> nat -> nat -> Image.pixel.

Local Abbreviation task option_chosen bg_color bg_image :=
  (process_single_image Image_open remove getcolor resample option_chosen bg_color
     bg_image).
Local Abbreviation run files option_chosen bg_color bg_image :=
  (process_images_parallel Image_open remove getcolor resample files
     option_chosen bg_color bg_image).

(** [main] starts a run only on a non-empty batch, the one the sidebar
    returned. *)
Lemma main_runs_nonempty_batches (session : session_state) (widgets : sidebar_widgets)
    (final : session_state) (shown : list st_call) :
  main Image_open remove getcolor resample session widgets = inr (final, shown) ->
  exists files option_chosen bg_color bg_image process_btn shown0,
    display_sidebar Image_open session widgets
    = inr (files, option_chosen, bg_color, bg_image, process_btn, shown0)
    /\ ((final, shown) = (session, shown0)
        \/ (files <> []
            /\ final = fst (run files option_chosen bg_color bg_image)
            /\ shown = shown0 ++ snd (run files option_chosen bg_color bg_image))).
Proof.
  unfold main.
  destruct (display_sidebar Image_open session widgets)
    as [e|[[[[[files option_chosen] bg_color] bg_image] process_btn] shown0]];
    cbn [bind]; [discriminate|].
  intros H. exists files, option_chosen, bg_color, bg_image, process_btn, shown0.
  split; [reflexivity|].
  destruct (process_btn && negb (is_empty files)) eqn:E.
  - right. apply andb_true_iff in E as [_ E].
    destruct (process_images_parallel _ _ _ _ _ _ _ _) as [session' shown'].
    injection H as <- <-. repeat split.
    destruct files; [discriminate|congruence].
  - left. injection H as <- <-. reflexivity.
Qed.

(** C8: a batch of more than [MAX_FILES] = 10 files leaves the sidebar cut
    down to its first 10 files, with a warning saying so; the run that a
    click starts is the run on those 10 files, and on them each file yields
    one outcome: Successes and Failures add up to 10. *)
Theorem long_batch_is_truncated :
  forall (session : session_state) (widgets : sidebar_widgets)
         (files : list UploadedFile) (option_chosen : bg_option) (bg_color : string)
         (bg_image : option Image.t) (process_btn : bool) (shown : list st_call),
    display_sidebar Image_open session widgets
    = inr (files, option_chosen, bg_color, bg_image, process_btn, shown) ->
    (MAX_FILES < List.length (file_uploader widgets))%nat ->
    files = firstn MAX_FILES (file_uploader widgets)
    /\ List.length files = 10%nat
    /\ shown = [st_warning
                  (VStr "Maximum 10 files allowed. Only the first 10 will be processed.")]
    /\ (List.length (filter is_success (map (task option_chosen bg_color bg_image) files))
        + List.length (filter is_failure (map (task option_chosen bg_color bg_image) files))
        = 10)%nat
    /\ results (fst (run files option_chosen bg_color bg_image))
       = filter is_success (map (task option_chosen bg_color bg_image) files)
    /\ (process_btn = true ->
        main Image_open remove getcolor resample session widgets
        = inr (fst (run files option_chosen bg_color bg_image),
               shown ++ snd (run files option_chosen bg_color bg_image))).
Proof.
  intros session widgets files option_chosen bg_color bg_image process_btn shown H Hlong.
  assert (Hsidebar := H). unfold display_sidebar in H.
  match type of H with bind ?m _ = _ => destruct m as [e|background] end;
    cbn [bind] in H; [discriminate|].
  assert (Hmany : negb (is_empty (file_uploader widgets))
                  && (MAX_FILES <? List.length (file_uploader widgets))%nat = true).
  { apply andb_true_iff. split; [|apply Nat.ltb_lt; exact Hlong].
    destruct (file_uploader widgets); [inversion Hlong|reflexivity]. }
  rewrite Hmany in H. unfold ret in H.
  assert (Hfiles : firstn MAX_FILES (file_uploader widgets) = files) by congruence.
  assert (Hshown :
            [st_warning (VStr ("Maximum " ++ str_of_nat MAX_FILES
                               ++ " files allowed. Only the first "
                               ++ str_of_nat MAX_FILES ++ " will be processed."))]
            = shown) by congruence.
  clear H.
  assert (Hlen : List.length files = 10%nat).
  { rewrite <- Hfiles. apply firstn_length_le. unfold MAX_FILES in *. lia. }
  pose proof (outcomes_partition Image_open remove getcolor resample
                option_chosen bg_color bg_image files) as Hcount.
  pose proof (run_results Image_open remove getcolor resample
                option_chosen bg_color bg_image files) as Hres.
  rewrite Hlen in Hcount.
  split; [symmetry; exact Hfiles|]. split; [exact Hlen|].
  split; [symmetry; exact Hshown|]. split; [exact Hcount|]. split; [exact Hres|].
  intros Hclick. unfold main. rewrite Hsidebar. cbn [bind]. rewrite Hclick.
  destruct files; [discriminate|]. cbn [is_empty negb andb].
  destruct (process_images_parallel _ _ _ _ _ _ _ _). reflexivity.
Qed.

End ShellFacts.

(** ** Runs on concrete batches *)

Local Abbreviation sample_task :=
  (process_single_image Sample.Image_open Sample.remove Sample.getcolor
     Sample.resample opt_Transparent "#FFFFFF" None).
Local Abbreviation sample_submit :=
  (submit_all Sample.Image_open Sample.remove Sample.getcolor
     Sample.resample opt_Transparent "#FFFFFF" None).
Local Abbreviation sample_run files :=
  (process_images_parallel Sample.Image_open Sample.remove Sample.getcolor
     Sample.resample files opt_Transparent "#FFFFFF" None).

Lemma huge_buffer_len : len Sample.huge_buffer = 12582912.
Proof.
  unfold len, Sample.huge_buffer. rewrite repeat_length.
  apply Z2Nat.id. discriminate.
Qed.

Lemma huge_is_oversized : oversized Sample.huge = true.
Proof.
  unfold oversized. change (getvalue Sample.huge) with Sample.huge_buffer.
  rewrite huge_buffer_len. reflexivity.
Qed.

Lemma huge_outcome :
  sample_task Sample.huge = (VNone, VStr "Image huge.png exceeds 10MB limit", VNone).
Proof.
  exact (oversized_outcome Sample.Image_open Sample.remove Sample.getcolor
           Sample.resample opt_Transparent "#FFFFFF" None Sample.huge
           huge_is_oversized).
Qed.

(** C1 fails on the code.  The task of an oversized file returns the
    Failure triple [(None, message, None)], whose message names the file;
    the loop shows a warning only for a triple whose third component is true,
    so the message is never displayed and the file leaves no trace in the
    results: the run ends with the progress calls only. *)
Theorem failure_is_not_displayed :
  sample_task Sample.huge = (VNone, VStr "Image huge.png exceeds 10MB limit", VNone)
  /\ retrieve (inr (sample_task Sample.huge)) [] = ([], [])
  /\ sample_run [Sample.huge]
     = (mkSession false [],
        [st_progress 0; st_empty; progress_bar_progress 1 1;
         status_text_text "Processed 1/1 images";
         status_text_completed; progress_bar_empty])
  /\ warnings (snd (sample_run [Sample.huge])) = [].
Proof.
  split; [exact huge_outcome|]. split; [rewrite huge_outcome; reflexivity|].
  rewrite (run_single_failure _ _ _ _ _ _ _ _ _ huge_outcome).
  split; reflexivity.
Qed.

(** C3, as stated, fails: in a batch of three with one file of 12 MiB, the
    oversized file's Failure is the result of a future of the pool, and the
    last progress signal is (3, 3) although only 2 files pass the size
    test. *)
Lemma oversized_file_is_submitted_and_counted :
  oversized Sample.huge = true
  /\ In (mkFuture Sample.huge
           (inr (VNone, VStr "Image huge.png exceeds 10MB limit", VNone)))
        (sample_submit Sample.batch_of_three)
  /\ List.length (sample_submit Sample.batch_of_three) = 3%nat
  /\ List.length (admitted Sample.batch_of_three) = 2%nat
  /\ last (progress_signals (snd (sample_run Sample.batch_of_three))) (0, 0)%nat
     = (3, 3)%nat.
Proof.
  split; [exact huge_is_oversized|]. split; [|split; [|split]].
  - unfold submit_all, Sample.batch_of_three. cbn [map]. right; left.
    unfold executor_submit. rewrite huge_outcome. reflexivity.
  - unfold submit_all. rewrite length_map. reflexivity.
  - unfold admitted, Sample.batch_of_three. cbn [filter].
    rewrite huge_is_oversized.
    replace (oversized Sample.photo) with false by reflexivity.
    replace (oversized Sample.portrait) with false by reflexivity.
    reflexivity.
  - rewrite run_signals. reflexivity.
Qed.

Lemma oversized_file_fails_inside_its_task_witness :
  In Sample.huge Sample.batch_of_three
  /\ oversized Sample.huge = true
  /\ map task_arg (sample_submit Sample.batch_of_three) = Sample.batch_of_three
  /\ last (progress_signals (snd (sample_run Sample.batch_of_three))) (0, 0)%nat
     = (3, 3)%nat.
Proof.
  assert (Hin : In Sample.huge Sample.batch_of_three) by (right; left; reflexivity).
  split; [exact Hin|]. split; [exact huge_is_oversized|].
  destruct (oversized_file_fails_inside_its_task Sample.Image_open Sample.remove
              Sample.getcolor Sample.resample opt_Transparent "#FFFFFF" None
              Sample.batch_of_three Sample.huge Hin huge_is_oversized)
    as (_ & Hargs & _ & Hlast).
  split; [exact Hargs | exact Hlast].
Defined.

Lemma task_exception_becomes_failure_witness :
  try_body Sample.Image_open Sample.remove Sample.getcolor Sample.resample
    opt_Transparent "#FFFFFF" None Sample.corrupt
  = inl "cannot identify image file"%string
  /\ sample_task Sample.corrupt
     = (VNone, VStr "Error processing corrupt.png: cannot identify image file", VNone)
  /\ results (fst (sample_run [Sample.photo; Sample.corrupt; Sample.portrait]))
     = filter is_success (map sample_task [Sample.photo; Sample.portrait]).
Proof.
  split; [reflexivity|].
  destruct (task_exception_becomes_failure Sample.Image_open Sample.remove
              Sample.getcolor Sample.resample opt_Transparent "#FFFFFF" None
              [Sample.photo] [Sample.portrait] Sample.corrupt
              "cannot identify image file"%string eq_refl)
    as (Hfail & _ & Hres & _).
  split; [exact Hfail | exact Hres].
Defined.

Lemma progress_counts_up_to_total_witness :
  Sample.batch_of_three <> []
  /\ progress_signals (snd (sample_run Sample.batch_of_three))
     = [(1, 3); (2, 3); (3, 3)]%nat
  /\ List.length (filter is_final
                    (progress_signals (snd (sample_run Sample.batch_of_three))))
     = 1%nat.
Proof.
  assert (Hne : Sample.batch_of_three <> []) by discriminate.
  split; [exact Hne|].
  destruct (progress_counts_up_to_total Sample.Image_open Sample.remove
              Sample.getcolor Sample.resample opt_Transparent "#FFFFFF" None
              Sample.batch_of_three Hne)
    as (Hsignals & _ & _ & Honce).
  split; [exact Hsignals | exact Honce].
Defined.

Lemma long_batch_is_truncated_witness :
  (MAX_FILES < List.length Sample.eleven_files)%nat
  /\ (List.length
        (filter is_success
           (map sample_task (firstn MAX_FILES Sample.eleven_files)))
      + List.length
          (filter is_failure
             (map sample_task (firstn MAX_FILES Sample.eleven_files)))
      = 10)%nat.
Proof.
  assert (Hlong : (MAX_FILES < List.length Sample.eleven_files)%nat)
    by (unfold MAX_FILES; cbn; lia).
  split; [exact Hlong|].
  destruct (long_batch_is_truncated Sample.Image_open Sample.remove Sample.getcolor
              Sample.resample (mkSession false [])
              (mkWidgets opt_Transparent "#FFFFFF" None Sample.eleven_files true)
              (firstn MAX_FILES Sample.eleven_files) opt_Transparent "#FFFFFF" None
              true
              [st_warning
                 (VStr "Maximum 10 files allowed. Only the first 10 will be processed.")]
              eq_refl Hlong)
    as (_ & _ & _ & Hcount & _).
  exact Hcount.
Defined.

Lemma image_option_without_bitmap_is_transparent_witness :
  process_single_image Sample.Image_open Sample.remove Sample.getcolor
    Sample.resample opt_Image "#FFFFFF" None Sample.photo
  = (VImage (Image.mk Image.RGBA (1, 1)%nat [Sample.grey]),
     VImage (Image.mk Image.RGBA (1, 1)%nat [Sample.grey]),
     VStr "photo.png").
Proof.
  exact (proj2 (image_option_without_bitmap_is_transparent Sample.Image_open
                  Sample.remove Sample.getcolor Sample.resample
                  "#FFFFFF" "#FFFFFF" Sample.photo)
           _ _ eq_refl eq_refl eq_refl).
Defined.

(** * Further properties of the code *)

(** ** BackgroundReplacer, beyond the claims *)

Lemma alpha_composite_returns (im1 im2 out : Image.t) :
  Image.alpha_composite im1 im2 = inr out ->
  Image.mode im1 = Image.RGBA /\ Image.mode im2 = Image.RGBA
  /\ Image.size im1 = Image.size im2
  /\ out = Image.mk Image.RGBA (Image.size im1)
             (Image.zip_with Image.blend (Image.data im1) (Image.data im2)).
Proof.
  unfold Image.alpha_composite.
  destruct (Image.mode_eqb (Image.mode im1) Image.RGBA) eqn:M1;
    destruct (Image.mode_eqb (Image.mode im2) Image.RGBA) eqn:M2;
    destruct (Image.size_eqb (Image.size im1) (Image.size im2)) eqn:S;
    cbn [andb negb]; try discriminate.
  intros H; injection H as <-.
  apply mode_eqb_eq in M1, M2. apply size_eqb_eq in S. auto.
Qed.

Lemma zip_with_blend_opaque_background (bg fg : list Image.pixel) :
  Forall (fun p => Image.alpha p = 255) bg ->
  Forall (fun p => Image.alpha p = 255) (Image.zip_with Image.blend bg fg).
Proof.
  intros H. revert fg. induction H as [|b bg Hb _ IH]; intros fg; [constructor|].
  destruct fg as [|f fg]; cbn [Image.zip_with]; constructor.
  - apply blend_opaque_background. exact Hb.
  - apply IH.
Qed.

Lemma opaque_data_has_no_transparency (im : Image.t) :
  Image.alpha_255_everywhere im -> Image.has_transparency im = false.
Proof.
  unfold Image.alpha_255_everywhere, Image.has_transparency. intros H.
  destruct (Image.mode im); [reflexivity|].
  induction H as [|p l Hp _ IH]; [reflexivity|].
  cbn [existsb]. rewrite Hp, IH. reflexivity.
Qed.

(** The image [add_color_background] composites: the input, upgraded to
    [RGBA] when it has no alpha band. *)
Lemma upgraded_foreground (image : Image.t) :
  Image.mode (if negb (Image.mode_eqb (Image.mode image) Image.RGBA)
              then Image.convert Image.RGBA image else image) = Image.RGBA
  /\ Image.size (if negb (Image.mode_eqb (Image.mode image) Image.RGBA)
                 then Image.convert Image.RGBA image else image)
     = Image.size image
  /\ List.length (Image.data (if negb (Image.mode_eqb (Image.mode image) Image.RGBA)
                              then Image.convert Image.RGBA image else image))
     = List.length (Image.data image).
Proof.
  destruct (Image.mode_eqb (Image.mode image) Image.RGBA) eqn:E; cbn [negb].
  - apply mode_eqb_eq in E. auto.
  - auto using convert_mode, convert_size, convert_data_length.
Qed.

(** [add_color_background] accepts an image of any mode: it fails only when
    the colour does not parse, with the parser's exception, and otherwise
    returns an [RGBA] image of the input's size, well formed when the input
    is. *)
Theorem add_color_background_accepts_any_mode :
  forall getcolor (image : Image.t) (color : string),
    match getcolor color with
    | inl e => add_color_background getcolor image color = inl e
    | inr c =>
        exists out,
          add_color_background getcolor image color = inr out
          /\ Image.mode out = Image.RGBA
          /\ Image.size out = Image.size image
          /\ (Image.well_formed image -> Image.well_formed out)
    end.
Proof.
  intros getcolor image color. unfold add_color_background.
  destruct (getcolor color) as [e|c]; cbn [bind]; [reflexivity|].
  destruct (upgraded_foreground image) as (M & S & L).
  rewrite alpha_composite_ok by (cbn [Image.new Image.mode Image.size]; auto).
  eexists. split; [reflexivity|]. cbn [Image.mode Image.size Image.new Image.data].
  split; [reflexivity|]. split; [exact S|].
  unfold Image.well_formed. cbn [Image.size Image.data]. intros W.
  rewrite zip_with_length; rewrite ?repeat_length, L, W, S; reflexivity.
Qed.

(** [add_image_background] does not upgrade its foreground: it returns a
    composite exactly when the foreground is [RGBA], and raises
    "images do not match" for any other foreground, whatever the
    background. *)
Theorem add_image_background_succeeds_iff_alpha :
  forall resample (foreground background_img : Image.t),
    ((exists out, add_image_background resample foreground background_img = inr out)
     <-> Image.mode foreground = Image.RGBA)
    /\ (Image.mode foreground <> Image.RGBA
        <-> add_image_background resample foreground background_img
            = inl "images do not match"%string).
Proof.
  intros resample fg bg.
  assert (Hok : Image.mode fg = Image.RGBA ->
                exists out, add_image_background resample fg bg = inr out).
  { intros M. unfold add_image_background.
    rewrite alpha_composite_ok; eauto using convert_mode.
    rewrite convert_size.
    destruct (Image.size_eqb (Image.size bg) (Image.size fg)) eqn:E; cbn [negb].
    - apply size_eqb_eq; exact E.
    - reflexivity. }
  assert (Hko : Image.mode fg <> Image.RGBA ->
                add_image_background resample fg bg = inl "images do not match"%string).
  { intros M. apply add_image_background_needs_alpha.
    destruct (Image.mode fg); congruence. }
  split; split; auto.
  - intros [out H]. destruct (Image.mode fg) eqn:M; [|reflexivity].
    rewrite Hko in H by congruence. discriminate.
  - intros H M. destruct (Hok M) as [out Hout]. congruence.
Qed.

(** Over an opaque colour, and over a background without alpha band (the
    only kind the sidebar delivers), the composite has alpha 255 at every
    pixel: no transparency is left. *)
Theorem composites_are_opaque :
  forall getcolor resample (image background_img : Image.t) (color : string),
    (forall c out,
        getcolor color = inr c -> Image.alpha c = 255 ->
        add_color_background getcolor image color = inr out ->
        Image.alpha_255_everywhere out /\ Image.has_transparency out = false)
    /\ (forall out,
          Image.mode background_img = Image.RGB ->
          add_image_background resample image background_img = inr out ->
          Image.alpha_255_everywhere out /\ Image.has_transparency out = false).
Proof.
  intros getcolor resample image bg color.
  assert (Hsuffices : forall out,
             Image.alpha_255_everywhere out ->
             Image.alpha_255_everywhere out /\ Image.has_transparency out = false)
    by auto using opaque_data_has_no_transparency.
  split.
  - intros c out Hc Ha H. apply Hsuffices.
    unfold add_color_background in H. rewrite Hc in H. cbn [bind] in H.
    apply alpha_composite_returns in H as (_ & _ & _ & ->).
    unfold Image.alpha_255_everywhere. cbn [Image.data Image.new].
    apply zip_with_blend_opaque_background. apply Forall_forall.
    intros p Hp. apply repeat_spec in Hp. subst p. exact Ha.
  - intros out M H. apply Hsuffices.
    unfold add_image_background in H.
    apply alpha_composite_returns in H as (_ & _ & _ & ->).
    unfold Image.alpha_255_everywhere. cbn [Image.data].
    apply zip_with_blend_opaque_background.
    set (fitted := if negb _ then _ else _).
    assert (Mf : Image.mode fitted = Image.RGB).
    { unfold fitted. destruct (negb _); [exact M | exact M]. }
    unfold Image.convert. rewrite Mf. cbn [Image.mode_eqb Image.data].
    apply Forall_forall. intros p Hp. apply in_map_iff in Hp as (q & <- & _).
    reflexivity.
Qed.

Lemma composites_are_opaque_witness :
  Image.alpha_255_everywhere
    (Image.mk Image.RGBA (1, 1)%nat [Image.mkPixel 131 131 131 255])
  /\ Image.has_transparency
       (Image.mk Image.RGBA (1, 1)%nat [Image.mkPixel 131 131 131 255]) = false.
Proof.
  apply (proj1 (composites_are_opaque Sample.getcolor Sample.resample
                  (Image.mk Image.RGBA (1, 1)%nat [Image.mkPixel 9 9 9 128])
                  Sample.backdrop "#FFFFFF")
           Sample.white); reflexivity.
Defined.

(** ** The task and the run, beyond the claims *)

Lemma mentions_inside (before name after : string) :
  mentions (before ++ name ++ after) name.
Proof. exists before, after. reflexivity. Qed.

Section RunFacts.

Variable Image_open : list byte -> fallible Image.t.
Variable remove : list byte -> fallible (list byte).
Variable getcolor : string -> fallible Image.pixel.
Variable resample : Image.t -> nat * nat -> nat -> nat -> Image.pixel.
Variable option_chosen : bg_option.
Variable bg_color : string.
Variable bg_image : option Image.t.

Local Abbreviation body :=
  (try_body Image_open remove getcolor resample option_chosen bg_color bg_image).
Local Abbreviation task :=
  (process_single_image Image_open remove getcolor resample option_chosen bg_color
     bg_image).
Local Abbreviation submit :=
  (submit_all Image_open remove getcolor resample option_chosen bg_color bg_image).
Local Abbreviation run files :=
  (process_images_parallel Image_open remove getcolor resample files
     option_chosen bg_color bg_image).

(** Every Failure a task returns has a message that contains the file's
    name: the size message, exactly when the file is over 10 MiB, or
    "Error processing <name>: " followed by the text of the exception the
    body raised. *)
Theorem failure_message_names_the_file :
  forall (file : UploadedFile) (message : string),
    task file = (VNone, VStr message, VNone) ->
    mentions message (name file)
    /\ ((oversized file = true
         /\ message = ("Image " ++ name file ++ " exceeds 10MB limit")%string)
        \/ (oversized file = false
            /\ exists e, body file = inl e
                         /\ message
                            = ("Error processing " ++ name file ++ ": " ++ e)%string)).
Proof.
  intros file message H.
  assert (Hcases :
            (oversized file = true
             /\ message = ("Image " ++ name file ++ " exceeds 10MB limit")%string)
            \/ (oversized file = false
                /\ exists e, body file = inl e
                             /\ message
                                = ("Error processing " ++ name file ++ ": " ++ e)%string)).
  { destruct (oversized file) eqn:Hbig.
    - left. split; [reflexivity|].
      rewrite (oversized_outcome Image_open remove getcolor resample option_chosen
                 bg_color bg_image file Hbig) in H. congruence.
    - right. split; [reflexivity|].
      destruct (body file) as [e|o] eqn:E.
      + exists e. split; [reflexivity|].
        rewrite (raised_outcome Image_open remove getcolor resample option_chosen
                   bg_color bg_image file e E) in H. congruence.
      + exfalso.
        destruct (try_body_returns Image_open remove getcolor resample option_chosen
                    bg_color bg_image file o E) as [(a & b & ->)|[Hbig' _]];
          [|congruence].
        unfold process_single_image in H. rewrite E in H. discriminate. }
  split; [|exact Hcases].
  destruct Hcases as [[_ ->]|[_ (e & _ & ->)]]; apply mentions_inside.
Qed.

(** The parts of a Success triple. *)
Lemma success_parts :
  forall (file : UploadedFile) (original result : Image.t) (stored_name : string),
    task file = (VImage original, VImage result, VStr stored_name) ->
    stored_name = name file
    /\ oversized file = false
    /\ exists opened segmented,
        Image_open (getvalue file) = inr opened
        /\ remove_background Image_open remove (getvalue file) = inr segmented
        /\ original = Image.convert Image.RGBA opened
        /\ Image.mode original = Image.RGBA
        /\ Image.mode result = Image.RGBA
        /\ Image.size result = Image.size segmented
        /\ (option_chosen = opt_Transparent -> result = segmented).
Proof.
  intros file original result stored_name H.
  unfold process_single_image in H.
  destruct (body file) as [e|o] eqn:E; [discriminate|]. subst o.
  unfold try_body in E. fold (oversized file) in E.
  destruct (oversized file); [discriminate|].
  destruct (Image_open (getvalue file)) as [e|opened]; cbn [bind] in E;
    [discriminate|].
  destruct (remove_background Image_open remove (getvalue file))
    as [e|segmented] eqn:Hseg; cbn [bind] in E; [discriminate|].
  pose proof (remove_background_mode Image_open remove _ _ Hseg) as Mseg.
  match type of E with bind ?m _ = _ => destruct m as [e|composited] eqn:Hc end;
    cbn [bind] in E; [discriminate|].
  injection E as <- <- <-.
  split; [reflexivity|]. split; [reflexivity|].
  exists opened, segmented. repeat (split; [reflexivity|]).
  split; [apply convert_mode|].
  destruct option_chosen.
  - injection Hc as <-. auto.
  - unfold add_color_background in Hc.
    destruct (getcolor bg_color) as [e|c]; cbn [bind] in Hc; [discriminate|].
    apply alpha_composite_returns in Hc as (_ & _ & _ & ->).
    cbn [Image.mode Image.size Image.new].
    destruct (upgraded_foreground segmented) as (_ & S & _).
    split; [reflexivity|]. split; [exact S|discriminate].
  - destruct bg_image as [background|].
    + unfold add_image_background in Hc.
      apply alpha_composite_returns in Hc as (_ & _ & S & ->).
      cbn [Image.mode Image.size]. split; [reflexivity|].
      split; [exact S|discriminate].
    + injection Hc as <-. split; [exact Mseg|]. split; [reflexivity|discriminate].
Qed.

(** A Success holds the decoded upload, converted to [RGBA], and an [RGBA]
    result of the segmentation output's dimensions, under the file's own
    name; with the Transparent option the result is the segmentation output
    itself. *)
Theorem success_anatomy :
  forall (file : UploadedFile) (original result : Image.t) (stored_name : string),
    task file = (VImage original, VImage result, VStr stored_name) ->
    stored_name = name file
    /\ oversized file = false
    /\ exists opened segmented,
        Image_open (getvalue file) = inr opened
        /\ remove_background Image_open remove (getvalue file) = inr segmented
        /\ original = Image.convert Image.RGBA opened
        /\ Image.mode original = Image.RGBA
        /\ Image.mode result = Image.RGBA
        /\ Image.size result = Image.size segmented
        /\ (option_chosen = opt_Transparent -> result = segmented).
Proof. exact success_parts. Qed.

(** Whatever a run stores is a triple of two [RGBA] images and a name, so
    [image_to_bytes] saves both images of every stored entry as optimized
    PNG: the JPEG branch is never taken for an image of the pipeline. *)
Theorem stored_images_are_saved_as_png :
  forall (files : list UploadedFile) (entry : outcome),
    In entry (results (fst (run files))) ->
    exists original result stored_name,
      entry = of_stored (original, result, stored_name)
      /\ image_to_bytes_args original = mkSave PNG None true
      /\ image_to_bytes_args result = mkSave PNG None true.
Proof.
  intros files entry Hin.
  rewrite (run_results Image_open remove getcolor resample option_chosen bg_color
             bg_image files) in Hin.
  apply filter_In in Hin as [Hin Hs]. apply in_map_iff in Hin as (file & <- & _).
  destruct (task_outcome Image_open remove getcolor resample option_chosen bg_color
              bg_image file) as [(original & result & Ht)|(message & Ht)].
  - destruct (success_parts file original result (name file) Ht)
      as (_ & _ & opened & segmented & _ & _ & _ & Mo & Mr & _).
    exists original, result, (name file). split; [exact Ht|].
    unfold image_to_bytes_args. rewrite Mo, Mr. split; reflexivity.
  - rewrite Ht in Hs. discriminate.
Qed.

(** The stored results keep the upload order: their names are the names of
    the files whose task succeeded, in the order of the batch. *)
Theorem results_keep_upload_order :
  forall files : list UploadedFile,
    map snd (results (fst (run files)))
    = map (fun file => VStr (name file))
          (filter (fun file => is_success (task file)) files).
Proof.
  intros files.
  rewrite (run_results Image_open remove getcolor resample option_chosen bg_color
             bg_image files).
  induction files as [|file files IH]; [reflexivity|].
  cbn [map filter].
  destruct (task_outcome Image_open remove getcolor resample option_chosen bg_color
              bg_image file) as [(original & result & ->)|(message & ->)];
    cbn [is_success map snd]; rewrite IH; reflexivity.
Qed.

(** What a file contributes to the results does not depend on the batch it
    is uploaded in: the results of a concatenated batch are the results of
    its two parts, one after the other. *)
Theorem results_of_concatenated_batches :
  forall first second : list UploadedFile,
    results (fst (run (first ++ second)))
    = results (fst (run first)) ++ results (fst (run second)).
Proof.
  intros first second.
  rewrite !(run_results Image_open remove getcolor resample option_chosen bg_color
              bg_image).
  rewrite map_app, filter_app. reflexivity.
Qed.

Lemma collect_calls (futures_len files_len : nat) (files : list UploadedFile) :
  forall (i : nat) (stored_so_far : list outcome),
    snd (collect futures_len files_len i (submit files) stored_so_far)
    = flat_map
        (fun done =>
           [progress_bar_progress done futures_len;
            status_text_text ("Processed " ++ str_of_nat done ++ "/"
                              ++ str_of_nat files_len ++ " images")])
        (seq (i + 1) (List.length files)).
Proof.
  induction files as [|file files IH]; intros i stored_so_far; [reflexivity|].
  unfold submit_all. cbn [map collect executor_submit future_result].
  fold (submit files).
  assert (Hget : exists stored', retrieve (ret (task file)) stored_so_far = (stored', [])).
  { destruct (task_outcome Image_open remove getcolor resample option_chosen
                bg_color bg_image file) as [(original & result & ->)|(message & ->)];
      eexists; reflexivity. }
  destruct Hget as (stored' & ->). specialize (IH (S i) stored').
  destruct (collect futures_len files_len (S i) (submit files) stored')
    as [final later].
  cbn [snd] in *. cbn [List.length seq flat_map app]. rewrite IH.
  replace (S i + 1)%nat with (S (i + 1)) by lia. reflexivity.
Qed.

(** What a run displays depends on the number of files only: the new
    progress bar and placeholder, then for each future in turn the progress
    ratio and "Processed i/N images", then the completion text and the
    removal of the bar; and the run always ends with [processing] false. *)
Theorem run_displays_progress_only :
  forall files : list UploadedFile,
    snd (run files) = progress_script (List.length files)
    /\ processing (fst (run files)) = false.
Proof.
  intros files. split.
  - unfold process_images_parallel.
    pose proof (collect_calls (List.length (submit files)) (List.length files)
                  files 0%nat []) as H.
    destruct (collect _ _ _ _ _) as [final shown]. cbn [snd] in *.
    rewrite H. unfold progress_script, submit_all. rewrite length_map. reflexivity.
  - apply run_processing.
Qed.

End RunFacts.

(** ** The sidebar and [main], beyond the claims *)

Lemma too_many_iff_long {A} (l : list A) :
  negb (is_empty l) && (MAX_FILES <? List.length l)%nat
  = (MAX_FILES <? List.length l)%nat.
Proof. destruct l; reflexivity. Qed.

Lemma is_empty_firstn {A} (l : list A) : is_empty (firstn MAX_FILES l) = is_empty l.
Proof. destruct l; reflexivity. Qed.

Section SidebarFacts.

Variable Image_open : list byte -> fallible Image.t.
Variable remove : list byte -> fallible (list byte).
Variable getcolor : string -> fallible Image.pixel.
Variable resample : Image.t -> nat * nat -> nat -> nat -> Image.pixel.

Local Abbreviation task option_chosen bg_color bg_image :=
  (process_single_image Image_open remove getcolor resample option_chosen bg_color
     bg_image).
Local Abbreviation run files option_chosen bg_color bg_image :=
  (process_images_parallel Image_open remove getcolor resample files
     option_chosen bg_color bg_image).
Local Abbreviation too_many_warning :=
  (st_warning (VStr "Maximum 10 files allowed. Only the first 10 will be processed.")).

(** The background the sidebar opens. *)
Lemma sidebar_opens_background (session : session_state) (widgets : sidebar_widgets) :
  match radio widgets, bg_image_uploader widgets with
  | opt_Image, Some bg_image_file =>
      match Image_open bg_image_file with
      | inl e => display_sidebar Image_open session widgets = inl e
      | inr opened =>
          exists files process_btn shown,
            display_sidebar Image_open session widgets
            = inr (files, opt_Image, "#FFFFFF"%string,
                   Some (Image.convert Image.RGB opened), process_btn, shown)
      end
  | _, _ =>
      exists files bg_color process_btn shown,
        display_sidebar Image_open session widgets
        = inr (files, radio widgets, bg_color, None, process_btn, shown)
  end.
Proof.
  unfold display_sidebar.
  destruct (radio widgets); cbn [bind ret]; eauto 6.
  destruct (bg_image_uploader widgets) as [bg_image_file|]; cbn [bind ret]; eauto 6.
  destruct (Image_open bg_image_file); cbn [bind ret]; eauto 6.
Qed.

(** The batch, the colour and the button the sidebar returns. *)
Lemma sidebar_returns (session : session_state) (widgets : sidebar_widgets)
    (files : list UploadedFile) (option_chosen : bg_option) (bg_color : string)
    (bg_image : option Image.t) (process_btn : bool) (shown : list st_call) :
  display_sidebar Image_open session widgets
  = inr (files, option_chosen, bg_color, bg_image, process_btn, shown) ->
  files = firstn MAX_FILES (file_uploader widgets)
  /\ shown = (if (MAX_FILES <? List.length (file_uploader widgets))%nat
              then [too_many_warning] else [])
  /\ process_btn
     = button_clicked widgets
       && negb (processing session) && negb (is_empty (file_uploader widgets))
  /\ option_chosen = radio widgets
  /\ bg_color = match radio widgets with
                | opt_Color => color_picker widgets
                | _ => "#FFFFFF"%string
                end.
Proof.
  unfold display_sidebar.
  match goal with |- bind ?m _ = _ -> _ => destruct m as [e|background] end;
    cbn [bind]; [discriminate|].
  rewrite too_many_iff_long. unfold ret. intros H.
  destruct (MAX_FILES <? List.length (file_uploader widgets))%nat eqn:Hlong.
  - assert (files = firstn MAX_FILES (file_uploader widgets)) by congruence.
    assert (shown = [too_many_warning]) by (injection H; intros; subst; reflexivity).
    assert (process_btn
            = button_clicked widgets
              && negb (processing session
                       || is_empty (firstn MAX_FILES (file_uploader widgets))))
      by congruence.
    rewrite is_empty_firstn, negb_orb, andb_assoc in *.
    repeat split; congruence.
  - apply Nat.ltb_ge in Hlong.
    assert (files = file_uploader widgets) by congruence.
    assert (shown = []) by congruence.
    assert (process_btn
            = button_clicked widgets
              && negb (processing session || is_empty (file_uploader widgets)))
      by congruence.
    rewrite negb_orb, andb_assoc in *.
    rewrite firstn_all2 by exact Hlong.
    repeat split; congruence.
Qed.

(** The sidebar always hands on the first [MAX_FILES] files of the upload:
    at most 10 files, the whole upload untouched and without a warning when
    it has 10 files or fewer.  The button counts only when it is clicked
    while no run is in progress and something is uploaded. *)
Theorem sidebar_batch :
  forall (session : session_state) (widgets : sidebar_widgets)
         (files : list UploadedFile) (option_chosen : bg_option) (bg_color : string)
         (bg_image : option Image.t) (process_btn : bool) (shown : list st_call),
    display_sidebar Image_open session widgets
    = inr (files, option_chosen, bg_color, bg_image, process_btn, shown) ->
    files = firstn MAX_FILES (file_uploader widgets)
    /\ (List.length files <= 10)%nat
    /\ ((List.length (file_uploader widgets) <= 10)%nat ->
        files = file_uploader widgets /\ shown = [])
    /\ process_btn
       = button_clicked widgets
         && negb (processing session) && negb (is_empty (file_uploader widgets)).
Proof.
  intros session widgets files option_chosen bg_color bg_image process_btn shown H.
  destruct (sidebar_returns _ _ _ _ _ _ _ _ H) as (Hf & Hs & Hb & _ & _).
  split; [exact Hf|]. split; [|split; [|exact Hb]].
  - rewrite Hf, length_firstn. unfold MAX_FILES. lia.
  - intros Hshort. split.
    + rewrite Hf. apply firstn_all2. exact Hshort.
    + rewrite Hs.
      replace (MAX_FILES <? List.length (file_uploader widgets))%nat with false;
        [reflexivity|].
      symmetry. apply Nat.ltb_ge. exact Hshort.
Qed.

(** A background bitmap reaches the tasks only when the Image option is
    chosen and a file is uploaded for it, and then without alpha band, in
    mode [RGB]; the colour is the picker's only with the Color option and
    white otherwise.  A background upload that does not decode is an
    exception of the sidebar itself. *)
Theorem sidebar_background :
  forall (session : session_state) (widgets : sidebar_widgets),
    (forall e,
        display_sidebar Image_open session widgets = inl e
        <-> radio widgets = opt_Image
            /\ exists bg_image_file,
                bg_image_uploader widgets = Some bg_image_file
                /\ Image_open bg_image_file = inl e)
    /\ (forall files option_chosen bg_color bg_image process_btn shown,
          display_sidebar Image_open session widgets
          = inr (files, option_chosen, bg_color, bg_image, process_btn, shown) ->
          bg_color = match radio widgets with
                     | opt_Color => color_picker widgets
                     | _ => "#FFFFFF"%string
                     end
          /\ match bg_image with
             | None => radio widgets <> opt_Image \/ bg_image_uploader widgets = None
             | Some background =>
                 Image.mode background = Image.RGB
                 /\ radio widgets = opt_Image
                 /\ exists bg_image_file opened,
                     bg_image_uploader widgets = Some bg_image_file
                     /\ Image_open bg_image_file = inr opened
                     /\ background = Image.convert Image.RGB opened
             end).
Proof.
  intros session widgets. pose proof (sidebar_opens_background session widgets) as Hbg.
  split.
  - intros e. split.
    + intros H. destruct (radio widgets); try (destruct Hbg as (? & ? & ? & ? & Hbg);
        congruence).
      destruct (bg_image_uploader widgets) as [bg_image_file|];
        [|destruct Hbg as (? & ? & ? & ? & Hbg); congruence].
      destruct (Image_open bg_image_file) as [e'|opened] eqn:E;
        [|destruct Hbg as (? & ? & ? & Hbg); congruence].
      split; [reflexivity|]. exists bg_image_file. split; [reflexivity|]. congruence.
    + intros [Hr (bg_image_file & Hu & He)]. rewrite Hr, Hu, He in Hbg. exact Hbg.
  - intros files option_chosen bg_color bg_image process_btn shown H.
    destruct (sidebar_returns _ _ _ _ _ _ _ _ H) as (_ & _ & _ & _ & Hc).
    split; [exact Hc|].
    destruct (radio widgets) eqn:Hr;
      try (destruct Hbg as (? & ? & ? & ? & Hbg); rewrite Hbg in H;
           injection H as _ _ _ <- _ _; left; congruence).
    destruct (bg_image_uploader widgets) as [bg_image_file|] eqn:Hu.
    + destruct (Image_open bg_image_file) as [e'|opened] eqn:E; [congruence|].
      destruct Hbg as (? & ? & ? & Hbg). rewrite Hbg in H.
      injection H as _ _ _ <- _ _. split; [apply convert_mode|].
      split; [reflexivity|]. exists bg_image_file, opened. auto.
    + destruct Hbg as (? & ? & ? & ? & Hbg). rewrite Hbg in H.
      injection H as _ _ _ <- _ _. right. reflexivity.
Qed.


End SidebarFacts.

(** ** Session initialisation *)

(** [initialize_session] leaves every key that is in the session as it is
    and gives a missing key its default (the fresh identifier, [False], the
    empty list); afterwards all three keys are there, so a second call, with
    whatever identifier, changes nothing. *)
Theorem initialize_session_fills_missing_keys :
  forall (uuid4 uuid4' : string) (state : raw_session),
    uploader_key (initialize_session uuid4 state)
    = Some (match uploader_key state with Some key => key | None => uuid4 end)
    /\ processing_key (initialize_session uuid4 state)
       = Some (match processing_key state with Some flag => flag | None => false end)
    /\ results_key (initialize_session uuid4 state)
       = Some (match results_key state with Some stored => stored | None => [] end)
    /\ initialize_session uuid4' (initialize_session uuid4 state)
       = initialize_session uuid4 state.
Proof.
  intros uuid4 uuid4' [[key|] [flag|] [stored_results|]]; repeat split.
Qed.

(** ** The result page *)

Lemma list_pairs_ind {A} (P : list A -> Prop) :
  P [] -> (forall a, P [a]) -> (forall a b l, P l -> P (a :: b :: l)) ->
  forall l, P l.
Proof.
  intros H0 H1 H2.
  assert (H : forall l, P l /\ forall a, P (a :: l)).
  { induction l as [|b l [IH IH']]; [auto|]. split; [apply IH' | auto]. }
  intros l. apply H.
Qed.

Lemma range_step_two_more (n : nat) :
  range_step (S (S n)) 2 = 0%nat :: map (fun i => S (S i)) (range_step n 2).
Proof.
  unfold range_step.
  replace ((S (S n) + 2 - 1) / 2)%nat with (S ((n + 2 - 1) / 2)).
  - cbn [seq map]. rewrite <- seq_shift, !map_map. reflexivity.
  - replace (S (S n) + 2 - 1)%nat with (n + 2 - 1 + 1 * 2)%nat by lia.
    rewrite Nat.div_add by discriminate. lia.
Qed.

Lemma shown_images_app (l l' : list page_call) :
  shown_images (l ++ l') = shown_images l ++ shown_images l'.
Proof.
  induction l as [|c l IH]; [reflexivity|].
  destruct c; cbn [app shown_images]; rewrite IH; reflexivity.
Qed.

Section RenderingFacts.

Variable save : Image.t -> save_args -> list byte.
Variable Path_suffix : string -> string.
Variable Path_stem : string -> string.
Variable zip_getvalue : list (string * list byte) -> list byte.

Local Abbreviation render clicked results :=
  (display_results save Path_suffix Path_stem zip_getvalue clicked results).
Local Abbreviation captioned entry :=
  (let '(original, result, name) := entry : stored in
   [(original, ("Original: " ++ name)%string); (result, ("Result: " ++ name)%string)]).

(** The grid, row by row. *)
Lemma display_grid_rows :
  display_grid [] = []
  /\ (forall a, display_grid [a] = st_columns 2 :: display_row [a])
  /\ (forall a b rest,
        display_grid (a :: b :: rest)
        = st_columns 2 :: display_row [a; b] ++ display_grid rest).
Proof.
  split; [reflexivity|]. split; [intros [[o r] n]; reflexivity|].
  intros a b rest. unfold display_grid. cbn [List.length].
  rewrite range_step_two_more. cbn [flat_map]. rewrite flat_map_concat_map, map_map.
  rewrite <- flat_map_concat_map. reflexivity.
Qed.

Lemma display_row_images (row : list stored) :
  (List.length row <= 2)%nat ->
  shown_images (display_row row) = flat_map (fun entry => captioned entry) row.
Proof.
  destruct row as [|[[o r] n] [|[[o' r'] n'] [|c row]]]; cbn [List.length];
    try reflexivity; lia.
Qed.

Lemma display_grid_images (results : list stored) :
  shown_images (display_grid results)
  = flat_map (fun entry => captioned entry) results
  /\ rows_opened (display_grid results) = ((List.length results + 1) / 2)%nat.
Proof.
  induction results as [| a | a b rest [IH IH']] using list_pairs_ind.
  - split; reflexivity.
  - destruct a as [[o r] n]. split; reflexivity.
  - destruct display_grid_rows as (_ & _ & ->).
    destruct a as [[o r] n], b as [[o' r'] n'].
    cbn [display_row combine seq cols_per_row flat_map app shown_images rows_opened
         List.length].
    rewrite IH, IH'. split; [reflexivity|].
    replace (S (S (List.length rest)) + 1)%nat
      with (List.length rest + 1 + 1 * 2)%nat by lia.
    rewrite Nat.div_add by discriminate. lia.
Qed.

(** The result page shows every stored entry exactly once and in the stored
    order, its original and then its result, each captioned with the entry's
    name; the grid opens one row for every two entries; for no entry the
    page shows nothing at all. *)
Theorem page_shows_every_result_once :
  forall (clicked : bool) (results : list stored),
    shown_images (render clicked results)
    = flat_map (fun entry => captioned entry) results
    /\ rows_opened (display_grid results) = ((List.length results + 1) / 2)%nat
    /\ (results = [] -> render clicked results = []).
Proof.
  intros clicked results. destruct (display_grid_images results) as [Himg Hrows].
  split; [|split; [exact Hrows | intros ->; reflexivity]].
  unfold display_results. destruct results as [|a rest]; [reflexivity|].
  cbn [is_empty]. rewrite shown_images_app, Himg.
  rewrite <- app_nil_r. f_equal.
  destruct (List.length (a :: rest) =? 1)%nat.
  - cbn [nth]. destruct a as [[o r] n]. reflexivity.
  - unfold download_all_images. destruct clicked; reflexivity.
Qed.

Lemma download_labels_app (l l' : list page_call) :
  download_labels (l ++ l') = download_labels l ++ download_labels l'.
Proof.
  induction l as [|c l IH]; [reflexivity|].
  destruct c; cbn [app download_labels]; rewrite IH; reflexivity.
Qed.

Lemma display_grid_offers_nothing (results : list stored) :
  download_labels (display_grid results) = [].
Proof.
  induction results as [| a | a b rest IH] using list_pairs_ind.
  - reflexivity.
  - destruct a as [[o r] n]. reflexivity.
  - destruct display_grid_rows as (_ & _ & ->).
    destruct a as [[o r] n], b as [[o' r'] n'].
    cbn [display_row combine seq cols_per_row flat_map app download_labels].
    exact IH.
Qed.

(** What the page offers for download depends on the number of stored
    entries: nothing for none, the original and the result of the single
    entry for one, and for two or more only the archive, and that only
    once its button has been clicked. *)
Theorem page_download_offers :
  forall (clicked : bool) (results : list stored),
    download_labels (render clicked results)
    = match results with
      | [] => []
      | [_] => ["Download Original"; "Download Result"]%string
      | _ :: _ :: _ => if clicked then ["Click to download ZIP"%string] else []
      end.
Proof.
  intros clicked results. unfold display_results.
  destruct results as [|a [|b rest]]; [reflexivity| |];
    cbn [is_empty]; rewrite download_labels_app, display_grid_offers_nothing.
  - destruct a as [[o r] n]. reflexivity.
  - destruct clicked; reflexivity.
Qed.

(** *** The archive *)

Lemma append_cancel_l (p a b : string) : (p ++ a = p ++ b)%string -> a = b.
Proof.
  induction p as [|c p IH]; cbn [append]; [auto|].
  intros H. injection H as H. auto.
Qed.

Lemma append_length (a b : string) :
  String.length (a ++ b) = (String.length a + String.length b)%nat.
Proof. induction a as [|c a IH]; cbn [append String.length]; [|rewrite IH]; reflexivity. Qed.

Lemma append_cancel_r (a b s : string) : (a ++ s = b ++ s)%string -> a = b.
Proof.
  revert b. induction a as [|c a IH]; intros [|d b] H; cbn [append] in H.
  - reflexivity.
  - apply (f_equal String.length) in H. cbn [String.length] in H.
    rewrite append_length in H. lia.
  - apply (f_equal String.length) in H. cbn [String.length] in H.
    rewrite append_length in H. lia.
  - injection H as -> H. f_equal. auto.
Qed.

Local Abbreviation entry_names results :=
  (map fst (archive_entries save Path_stem results)).
Local Abbreviation stems results :=
  (map (fun entry : stored => Path_stem (snd entry)) results).

Lemma archive_has_original (results : list stored) (name : string) :
  In ("originals/" ++ name)%string (entry_names results)
  <-> In name (map (fun entry : stored => snd entry) results).
Proof.
  induction results as [|[[o r] n] rest IH]; [reflexivity|].
  cbn [archive_entries flat_map app map fst snd In]. rewrite IH. split.
  - intros [H|[H|H]]; [left | discriminate | right; exact H].
    apply (append_cancel_l "originals/"). exact H.
  - intros [->|H]; auto.
Qed.

Lemma archive_has_result (results : list stored) (stem : string) :
  In ("results/" ++ stem ++ "_nobg.png")%string (entry_names results)
  <-> In stem (stems results).
Proof.
  induction results as [|[[o r] n] rest IH]; [reflexivity|].
  cbn [archive_entries flat_map app map fst snd In]. rewrite IH. split.
  - intros [H|[H|H]]; [discriminate | left | right; exact H].
    apply (append_cancel_l "results/") in H.
    apply append_cancel_r in H. exact H.
  - intros [->|H]; auto.
Qed.

(** The archive gets two entries for every stored result, in the stored
    order: "originals/<name>" and "results/<stem>_nobg.png".  Its entry
    names are pairwise distinct exactly when the stems of the stored names
    are: two uploads that differ in their extension only are written under
    one and the same result name. *)
Theorem archive_names_distinct_iff_stems_distinct :
  forall results : list stored,
    List.length (archive_entries save Path_stem results)
    = (2 * List.length results)%nat
    /\ (NoDup (entry_names results) <-> NoDup (stems results)).
Proof.
  intros results. split.
  - induction results as [|[[o r] n] rest IH]; [reflexivity|].
    change (archive_entries save Path_stem ((o, r, n) :: rest))
      with ([(("originals/" ++ n)%string, image_to_bytes save o);
             (("results/" ++ Path_stem n ++ "_nobg.png")%string,
              image_to_bytes save r)]
            ++ archive_entries save Path_stem rest).
    rewrite length_app, IH. cbn [List.length]. lia.
  - induction results as [|[[o r] n] rest IH].
    + split; constructor.
    + cbn [archive_entries flat_map app map fst snd]. split.
      * intros H. inversion H as [|x l _ H']; subst.
        inversion H' as [|x l Hr Hrest]; subst.
        constructor; [|apply IH; exact Hrest].
        intros Hin. apply Hr. apply archive_has_result. exact Hin.
      * intros H. inversion H as [|x l Hs Hrest]; subst.
        constructor; [|constructor].
        -- intros [Heq|Hin]; [discriminate|].
           apply archive_has_original in Hin. apply Hs.
           apply in_map_iff in Hin as (entry & <- & Hin).
           apply in_map_iff. exists entry. auto.
        -- intros Hin. apply Hs. apply archive_has_result. exact Hin.
        -- apply IH. exact Hrest.
Qed.

End RenderingFacts.

(** ** From the task to the download *)

Section DownloadFacts.

Variable Image_open : list byte -> fallible Image.t.
Variable remove : list byte -> fallible (list byte).
Variable getcolor : string -> fallible Image.pixel.
Variable resample : Image.t -> nat * nat -> nat -> nat -> Image.pixel.
Variable save : Image.t -> save_args -> list byte.
Variable Path_suffix : string -> string.
Variable Path_stem : string -> string.

(** The single-image downloads of a Success carry PNG data for the result
    and for the original alike: the original is offered under the upload's
    own name, with the mime type of that name's extension, but its bytes are
    the PNG encoding of the upload converted to [RGBA]. *)
Theorem single_downloads_are_png :
  forall (option_chosen : bg_option) (bg_color : string) (bg_image : option Image.t)
         (file : UploadedFile) (original result : Image.t) (stored_name : string),
    process_single_image Image_open remove getcolor resample option_chosen bg_color
      bg_image file
    = (VImage original, VImage result, VStr stored_name) ->
    download_single_image save Path_suffix Path_stem (original, result, stored_name)
    = [st_columns 2;
       st_download_button (Some 0%nat) "Download Original"
         (save original (mkSave PNG None true))
         ("original_" ++ name file)
         ("image/" ++ drop_first (Path_suffix (name file)));
       st_download_button (Some 1%nat) "Download Result"
         (save result (mkSave PNG None true))
         (Path_stem (name file) ++ "_nobg.png")
         "image/png"].
Proof.
  intros option_chosen bg_color bg_image file original result stored_name H.
  destruct (success_parts Image_open remove getcolor resample option_chosen bg_color
              bg_image file original result stored_name H)
    as (-> & _ & opened & segmented & _ & _ & _ & Mo & Mr & _).
  unfold download_single_image, image_to_bytes, image_to_bytes_args.
  rewrite Mo, Mr. reflexivity.
Qed.

End DownloadFacts.

(** ** Further runs on concrete inputs *)

Lemma failure_message_names_the_file_witness :
  mentions "Error processing corrupt.png: cannot identify image file" "corrupt.png".
Proof.
  exact (proj1 (failure_message_names_the_file Sample.Image_open Sample.remove
                  Sample.getcolor Sample.resample opt_Transparent "#FFFFFF" None
                  Sample.corrupt
                  "Error processing corrupt.png: cannot identify image file"
                  eq_refl)).
Defined.

Lemma success_anatomy_witness :
  sample_task Sample.photo
  = (VImage (Image.mk Image.RGBA (1, 1)%nat [Sample.grey]),
     VImage (Image.mk Image.RGBA (1, 1)%nat [Sample.grey]), VStr "photo.png")
  /\ oversized Sample.photo = false.
Proof.
  split; [reflexivity|].
  exact (proj1 (proj2 (success_anatomy Sample.Image_open Sample.remove
                         Sample.getcolor Sample.resample opt_Transparent "#FFFFFF"
                         None Sample.photo _ _ _ eq_refl))).
Defined.

Lemma stored_images_are_saved_as_png_witness :
  exists original result stored_name,
    (VImage (Image.mk Image.RGBA (1, 1)%nat [Sample.grey]),
     VImage (Image.mk Image.RGBA (1, 1)%nat [Sample.grey]), VStr "portrait.jpg")
    = of_stored (original, result, stored_name)
    /\ image_to_bytes_args original = mkSave PNG None true
    /\ image_to_bytes_args result = mkSave PNG None true.
Proof.
  apply (stored_images_are_saved_as_png Sample.Image_open Sample.remove
           Sample.getcolor Sample.resample opt_Transparent "#FFFFFF" None
           [Sample.corrupt; Sample.portrait]).
  left. reflexivity.
Defined.

Lemma sidebar_batch_witness :
  (List.length [Sample.photo; Sample.corrupt] <= 10)%nat
  /\ [Sample.photo; Sample.corrupt] = firstn MAX_FILES [Sample.photo; Sample.corrupt].
Proof.
  split; [cbn; lia|].
  exact (proj1 (sidebar_batch Sample.Image_open (mkSession false [])
                  (mkWidgets opt_Color "#00FF00" None [Sample.photo; Sample.corrupt]
                     true)
                  [Sample.photo; Sample.corrupt] opt_Color "#00FF00" None true []
                  eq_refl)).
Defined.

Lemma single_downloads_are_png_witness :
  download_single_image SamplePath.save SamplePath.suffix SamplePath.stem
    (Image.mk Image.RGBA (1, 1)%nat [Sample.grey],
     Image.mk Image.RGBA (1, 1)%nat [Sample.grey], "portrait.jpg"%string)
  = [st_columns 2;
     st_download_button (Some 0%nat) "Download Original"
       ["137"%byte; "P"%byte; "N"%byte; "G"%byte] "original_portrait.jpg" "image/jpg";
     st_download_button (Some 1%nat) "Download Result"
       ["137"%byte; "P"%byte; "N"%byte; "G"%byte] "portrait_nobg.png" "image/png"].
Proof.
  exact (single_downloads_are_png Sample.Image_open Sample.remove Sample.getcolor
           Sample.resample SamplePath.save SamplePath.suffix SamplePath.stem
           opt_Transparent "#FFFFFF" None Sample.portrait _ _ _ eq_refl).
Defined.

Lemma archive_names_distinct_iff_stems_distinct_witness :
  List.length
    (archive_entries SamplePath.save SamplePath.stem
       [(Sample.opaque_rgba, Sample.opaque_rgba, "a.png"%string);
        (Sample.opaque_rgba, Sample.opaque_rgba, "a.jpg"%string)])
  = 4%nat
  /\ map fst
       (archive_entries SamplePath.save SamplePath.stem
          [(Sample.opaque_rgba, Sample.opaque_rgba, "a.png"%string);
           (Sample.opaque_rgba, Sample.opaque_rgba, "a.jpg"%string)])
     = ["originals/a.png"; "results/a_nobg.png";
        "originals/a.jpg"; "results/a_nobg.png"]%string.
Proof.
  split; [|reflexivity].
  exact (proj1 (archive_names_distinct_iff_stems_distinct SamplePath.save
                  SamplePath.stem
                  [(Sample.opaque_rgba, Sample.opaque_rgba, "a.png"%string);
                   (Sample.opaque_rgba, Sample.opaque_rgba, "a.jpg"%string)])).
Defined.
